(** * GrowthBook: front-end usage tracking and the update-experiment handler

    A shallow embedding of
    - [packages/front-end/services/track.ts] (modules [Track] and
      [Trackers]), and
    - the REST handler [updateExperiment] (module [UpdateExperiment]),
    followed by the properties their specification states about them
    (modules [JsStringFacts], [ReferrerFacts], [TrackFacts] and
    [UpdateExperimentFacts]) and
    by further properties read off the code (modules [TrackMoreFacts],
    [TrackersFacts] and [UpdateExperimentMoreFacts]).

    Conventions.
    - A JavaScript string is a [string]; only ASCII patterns are ever matched
      against it, so the byte view and the UTF-16 view agree on every test
      made here.
    - A JavaScript object used as a property bag is an association list in
      insertion order ([TrackEventProps]); a [Record<string, string>] used as
      a lookup table and the cookie jar are [gmap]s.
    - The tracking module is written in a state monad over the browser
      [World]; every observable action (cookie access, request, console
      output, use of the analytics client) is appended to the world's [log].
      A call that may throw returns a [Completion]: [window.history.state]
      is [null] for a history entry without state, and reading its [key]
      then raises a TypeError.
    - The handler is written in a state-and-exception monad; every call it
      makes on the data layer is appended to the state's [calls].
    - Code imported from outside the two files (md5, uuid, JSON.stringify,
      the data layer and the permission checker) is a parameter: the classes
      [Track.Libs] and [UpdateExperiment.Backend]. *)

From Stdlib Require Import String Ascii ZArith Bool Lia.
From stdpp Require Import gmap strings list fin_maps pretty.

(** ** JavaScript strings *)

Module JsString.

(** [s.substring(4)]-style suffix: drops the first [n] characters. *)
Fixpoint drop (n : nat) (s : string) : string :=
  match n, s with
  | O, _ => s
  | S _, EmptyString => EmptyString
  | S n', String _ s' => drop n' s'
  end.

(** The first [n] characters (all of [s] when it is shorter). *)
Fixpoint take (n : nat) (s : string) : string :=
  match n, s with
  | O, _ => EmptyString
  | S _, EmptyString => EmptyString
  | S n', String c s' => String c (take n' s')
  end.

(** [s.substring(start, end)]: both indices are clamped to the length and
    swapped when [start > end]; [end = None] stands for an omitted second
    argument. *)
Definition substring (s : string) (start : nat) (end_ : option nat) : string :=
  let len := String.length s in
  let a := Nat.min start len in
  let b := match end_ with Some e => Nat.min e len | None => len end in
  take (Nat.max a b - Nat.min a b) (drop (Nat.min a b) s).

(** Truthiness of a string value: every string but the empty one. *)
Definition truthy (s : string) : bool :=
  match s with EmptyString => false | String _ _ => true end.

(** [===] on strings. *)
Definition eqb (a b : string) : bool := bool_decide (a = b).

(** ASCII lower-casing, the case folding a non-unicode [/i] pattern applies
    to the letters of an ASCII literal. *)
Definition lower_ascii (c : ascii) : ascii :=
  let n := nat_of_ascii c in
  if (65 <=? n)%nat && (n <=? 90)%nat then ascii_of_nat (n + 32) else c.

Fixpoint lower (s : string) : string :=
  match s with
  | EmptyString => EmptyString
  | String c s' => String (lower_ascii c) (lower s')
  end.

(** Unanchored search for a literal: does [pat] occur somewhere in [s]? *)
Fixpoint includes (pat s : string) : bool :=
  String.prefix pat s ||
  match s with
  | EmptyString => false
  | String _ s' => includes pat s'
  end.

(** [occurs_in pat s]: [pat] is a contiguous part of [s]. *)
Definition occurs_in (pat s : string) : Prop :=
  exists before after, s = before +:+ pat +:+ after.

End JsString.

(** ** The tracking module: [packages/front-end/services/track.ts] *)

Module Track.

(** *** Property bags *)

(** The values of a property ([unknown] in the source): the primitive ones,
    and [VInherited name], the value every object inherits from
    [Object.prototype] under [name] (a function such as [toString], or the
    prototype itself for [__proto__]).  No property below depends on what
    the caller supplies. *)
Inductive Value :=
| VUndefined
| VNull
| VBool (b : bool)
| VNum (n : Z)
| VStr (s : string)
| VInherited (name : string).

(** [TrackEventProps = Record<string, unknown>]: a JavaScript object, that is
    its own properties in insertion order.  (JavaScript enumerates
    integer-like keys first; only look-ups are used below, which do not
    depend on the order.) *)
Definition TrackEventProps := list (string * Value).

(** [o[k] = v]: an existing key keeps its place and takes the new value, a new
    key goes last. *)
Fixpoint obj_set (k : string) (v : Value) (o : TrackEventProps) : TrackEventProps :=
  match o with
  | [] => [(k, v)]
  | (k', v') :: o' =>
      if JsString.eqb k k' then (k, v) :: o' else (k', v') :: obj_set k v o'
  end.

(** [o[k]], [None] when [k] is not an own property. *)
Fixpoint obj_get (k : string) (o : TrackEventProps) : option Value :=
  match o with
  | [] => None
  | (k', v') :: o' => if JsString.eqb k k' then Some v' else obj_get k o'
  end.

(** An object literal [{ ...spread, k1: v1, ..., kn: vn }]: the entries are
    assigned from left to right onto the empty object, so a later entry
    overrides an earlier one with the same key. *)
Definition obj_literal (spread fields : TrackEventProps) : TrackEventProps :=
  fold_left (fun o kv => obj_set kv.1 kv.2 o) (spread ++ fields) [].

(** A possibly-undefined string as a property value. *)
Definition opt_val (o : option string) : Value :=
  match o with Some s => VStr s | None => VUndefined end.

(** Truthiness of a possibly-undefined string. *)
Definition opt_truthy (o : option string) : bool :=
  match o with Some s => JsString.truthy s | None => false end.

(** *** The imported libraries

    [md5], [uuid] and [JSON.stringify] are not part of the repository; the
    module is stated over them.  [uuidv4 n] is the token the random generator
    returns on its [n]-th draw. *)
Class Libs := {
  md5 : string -> string;
  uuidv4 : nat -> string;
  JSON_stringify : TrackEventProps -> string;
}.

(** *** The environment ([./env], [./UserContext], [./utils]) *)

Record Build := { sha : string; date : string; lastVersion : string }.

Record User := {
  cu_org : option string;
  cu_id : option string;
  cu_role : option string;
  cu_effectiveAccountPlan : option string;
  cu_orgCreationDate : option string;
}.

Record Env := {
  getGrowthBookBuild : Build;
  hasFileConfig : bool;
  inTelemetryDebugMode : bool;
  isCloud : bool;
  isTelemetryEnabled : bool;
  dataWarehouseUrl : string;
  GB_SDK_ID : string;
  getCurrentUser : option User;
}.

(** *** The browser context ([window], [location], [document]) *)

Record Location := { protocol : string; hostname : string; pathname : string }.

(** The fields [new Date(y, m, d, h, min, s)] is built from. *)
Record DateFields := {
  fullYear : Z; month : Z; day : Z; hours : Z; minutes : Z; seconds : Z;
}.

(** [window.history.state] when it is not [null]: [state_key] is its [key]
    property, [None] when it has none. *)
Record HistoryState := { state_key : option string }.

(** [history_state] is [window.history.state], [None] when it is [null]
    (an entry no script has given a state to).  [fetch_throws] tells whether
    the call to [fetch] raises synchronously. *)
Record Window := {
  location : Location;
  referrer : option string;
  history_state : option HistoryState;
  now : DateFields;
  fetch_throws : bool;
}.

(** What a call can throw, and how a call completes. *)
Inductive Exception := TypeError.

Inductive Completion (A : Type) :=
| Normal (a : A)
| Abrupt (e : Exception).
Arguments Normal {A} a.
Arguments Abrupt {A} e.

(** *** Cookies, the analytics client and the observable actions *)

Inductive Expires := ExpiresDays (n : nat) | ExpiresAt (d : DateFields).
Inductive SameSite := Strict | Lax | SameSiteNone.
Record CookieAttributes := { expires : Expires; sameSite : SameSite }.
Record Cookie := { cookie_value : string; cookie_attributes : CookieAttributes }.

Record JitsuOptions := {
  key : string;
  log_level : string;
  tracking_host : string;
  cookie_name : string;
  capture_3rd_party_cookies : option (list string);
  randomize_url : bool;
}.

(** A client object: [handle] is its identity, fresh at each creation. *)
Record JitsuClient := { handle : nat; options : JitsuOptions }.

Inductive Effect :=
| CookieGet (name : string)
| CookieSet (name value : string) (attributes : CookieAttributes)
| Fetch (url method body : string) (headers : list (string * string))
| ConsoleLog (message event : string) (props : TrackEventProps)
| ConsoleError (message : string)
| ConsoleErrorException
| JitsuInit (client : JitsuClient)
| JitsuTrack (client : JitsuClient) (event : string) (props : TrackEventProps).

(** The mutable state the module lives in: the cookie jar, the module-level
    [pageIds] and [jitsu] variables, the position in the random stream, the
    number of client objects created so far, and the trace of actions. *)
Record World := {
  cookies : gmap string Cookie;
  pageIds : gmap string string;
  jitsu : option JitsuClient;
  entropy : nat;
  handles : nat;
  log : list Effect;
}.

(** *** A state monad over the world *)

Definition M (A : Type) : Type := World -> A * World.

Definition ret {A} (a : A) : M A := fun w => (a, w).

Definition bind {A B} (m : M A) (k : A -> M B) : M B :=
  fun w => let (a, w') := m w in k a w'.

Declare Scope track_scope.
Delimit Scope track_scope with track.
Notation "x <- m ;; k" := (bind m (fun x => k))
  (at level 100, m at next level, right associativity) : track_scope.
Notation "m ;; k" := (bind m (fun _ => k))
  (at level 100, right associativity) : track_scope.
Open Scope track_scope.

Definition emit (e : Effect) : M unit := fun w =>
  (tt, {| cookies := cookies w; pageIds := pageIds w; jitsu := jitsu w;
          entropy := entropy w; handles := handles w;
          log := log w ++ [e] |}).

(** [Cookies.get(name)] *)
Definition Cookies_get (name : string) : M (option string) := fun w =>
  let (_, w') := emit (CookieGet name) w in
  (cookie_value <$> cookies w !! name, w').

(** [Cookies.set(name, value, attributes)].  The jar records the write.  When
    the browser drops a cookie (its expiry has passed) is outside the model:
    what is said below of a later read is said of a world whose jar holds
    the cookie. *)
Definition Cookies_set (name value : string) (a : CookieAttributes) : M unit :=
  fun w =>
  let (_, w') := emit (CookieSet name value a) w in
  (tt, {| cookies := <[name := {| cookie_value := value; cookie_attributes := a |}]> (cookies w');
          pageIds := pageIds w'; jitsu := jitsu w';
          entropy := entropy w'; handles := handles w'; log := log w' |}).

(** [uuidv4()]: the next token of the random stream. *)
Definition uuid `{Libs} : M string := fun w =>
  (uuidv4 (entropy w),
   {| cookies := cookies w; pageIds := pageIds w; jitsu := jitsu w;
      entropy := S (entropy w); handles := handles w; log := log w |}).

(** [value || fallback()] on a possibly-undefined string: the fallback runs
    only when the value is falsy. *)
Definition or_else (value : option string) (fallback : M string) : M string :=
  match value with
  | Some s => if JsString.truthy s then ret s else fallback
  | None => fallback
  end.

Definition get_pageIds : M (gmap string string) := fun w => (pageIds w, w).

Definition set_pageId (k v : string) : M unit := fun w =>
  (tt, {| cookies := cookies w; pageIds := <[k := v]> (pageIds w);
          jitsu := jitsu w; entropy := entropy w; handles := handles w;
          log := log w |}).

Definition get_jitsu : M (option JitsuClient) := fun w => (jitsu w, w).

(** [jitsu = jitsuClient(options)]: creates a client object and stores it in
    the module-level variable. *)
Definition jitsuClient (o : JitsuOptions) : M JitsuClient := fun w =>
  let c := {| handle := handles w; options := o |} in
  let (_, w') := emit (JitsuInit c) w in
  (c, {| cookies := cookies w'; pageIds := pageIds w'; jitsu := Some c;
         entropy := entropy w'; handles := S (handles w'); log := log w' |}).

(** [fetch(url, init)]: the request is recorded; the result tells whether the
    call raised. *)
Definition fetch (win : Window) (url method body : string)
    (headers : list (string * string)) : M bool := fun w =>
  let (_, w') := emit (Fetch url method body headers) w in
  (fetch_throws win, w').

(** *** The module's functions *)

Definition DEVICE_ID_COOKIE : string := "gb_device_id".
Definition SESSION_ID_COOKIE : string := "gb_session_id".

(** The shape of the body posted to the warehouse.  [page_id] is declared a
    string; it holds whatever [getOrGeneratePageId] returned. *)
Record DataWarehouseTrackedEvent := {
  event_name : string;
  properties_json : string;
  device_id : string;
  page_id : Value;
  session_id : string;
  sdk_language : string;
  sdk_version : string;
  url : string;
  page_title : option string;
  utm_source : option string;
  utm_medium : option string;
  utm_campaign : option string;
  utm_term : option string;
  utm_content : option string;
  user_id : option string;
  user_attributes_json : string;
}.

(** The event as the object [JSON.stringify] receives: the fields the literal
    in [track] writes, in its order. *)
Definition event_object (e : DataWarehouseTrackedEvent) : TrackEventProps :=
  [ ("event_name", VStr (event_name e));
    ("properties_json", VStr (properties_json e));
    ("device_id", VStr (device_id e));
    ("page_id", page_id e);
    ("session_id", VStr (session_id e));
    ("sdk_language", VStr (sdk_language e));
    ("sdk_version", VStr (sdk_version e));
    ("url", VStr (url e));
    ("user_id", opt_val (user_id e));
    ("user_attributes_json", VStr (user_attributes_json e)) ].

Section Functions.
Context `{Libs}.

(** [dataWareHouseTrack(event)]: nothing when the URL is not configured;
    otherwise the request, and the two console errors when [fetch] raises
    in debug mode. *)
Definition dataWareHouseTrack (env : Env) (win : Window)
    (event : DataWarehouseTrackedEvent) : M unit :=
  if negb (JsString.truthy (dataWarehouseUrl env)) then ret tt
  else
    threw <- fetch win
               (dataWarehouseUrl env +:+ "/track?client_key=" +:+ GB_SDK_ID env)
               "POST"
               (JSON_stringify (event_object event))
               [("Accept", "application/json");
                ("Content-Type", "application/json")] ;;
    if threw then
      if inTelemetryDebugMode env then
        emit (ConsoleError "Failed to fire tracking event") ;;
        emit ConsoleErrorException
      else ret tt
    else ret tt.

(** [getOrGenerateDeviceId()]: the cookie is written on every call, also when
    it was read. *)
Definition getOrGenerateDeviceId : M string :=
  cookie <- Cookies_get DEVICE_ID_COOKIE ;;
  deviceId <- or_else cookie uuid ;;
  Cookies_set DEVICE_ID_COOKIE deviceId
    {| expires := ExpiresDays 365; sameSite := Strict |} ;;
  ret deviceId.

(** The names every object literal inherits from [Object.prototype]. *)
Definition Object_prototype_names : list string :=
  [ "constructor"; "__defineGetter__"; "__defineSetter__"; "hasOwnProperty";
    "__lookupGetter__"; "__lookupSetter__"; "isPrototypeOf";
    "propertyIsEnumerable"; "toString"; "valueOf"; "__proto__";
    "toLocaleString" ].

Definition inherited (name : string) : bool :=
  bool_decide (name ∈ Object_prototype_names).

(** The property name a value used as a key is converted to. *)
Definition property_name (key : option string) : string :=
  default "undefined" key.

(** [name in pageIds]: an own property or an inherited one. *)
Definition has_property (ids : gmap string string) (name : string) : bool :=
  bool_decide (is_Some (ids !! name)) || inherited name.

(** [pageIds[name]] *)
Definition get_property (ids : gmap string string) (name : string) : Value :=
  match ids !! name with
  | Some v => VStr v
  | None => if inherited name then VInherited name else VUndefined
  end.

(** [getOrGeneratePageId()]: reading [.key] of a [null] state throws; the
    test [key in pageIds] also holds for an inherited name, for which nothing
    is stored and the inherited value is returned. *)
Definition getOrGeneratePageId (win : Window) : M (Completion Value) :=
  match history_state win with
  | None => ret (Abrupt TypeError)
  | Some state =>
      let key := property_name (state_key state) in
      ids <- get_pageIds ;;
      (if has_property ids key then ret tt
       else (fresh <- uuid ;; set_pageId key fresh)) ;;
      ids' <- get_pageIds ;;
      ret (Normal (get_property ids' key))
  end.

(** [getOrGenerateSessionId()]: as for the device; the expiry is the date
    built from the fields of the current local time, with thirty added to
    the minutes. *)
Definition getOrGenerateSessionId (win : Window) : M string :=
  cookie <- Cookies_get SESSION_ID_COOKIE ;;
  sessionId <- or_else cookie uuid ;;
  let now := now win in
  Cookies_set SESSION_ID_COOKIE sessionId
    {| expires := ExpiresAt {| fullYear := fullYear now; month := month now;
                               day := day now; hours := hours now;
                               minutes := minutes now + 30;
                               seconds := seconds now |};
       sameSite := Strict |} ;;
  ret sessionId.

(** [!!location.hostname.match(/(localhost|127\.0\.0\.1)/i)] *)
Definition isLocalhost (win : Window) : bool :=
  let h := JsString.lower (hostname (location win)) in
  JsString.includes "localhost" h || JsString.includes "127.0.0.1" h.

(** The masked host name: [isLocalhost ? ... : isCloud() ? ... : ...]. *)
Definition host (env : Env) (win : Window) : string :=
  if isLocalhost win then "localhost"
  else if isCloud env then "cloud" else "self-hosted".

(** [document?.referrer?.match(/weblens\.ai/) ? document.referrer : ""] *)
Definition referer (win : Window) : string :=
  match referrer win with
  | Some r => if JsString.includes "weblens.ai" r then r else EmptyString
  | None => EmptyString
  end.

(** [currentUser?.org], [currentUser?.id], ... *)
Definition current_org (env : Env) : option string := getCurrentUser env ≫= cu_org.
Definition current_id (env : Env) : option string := getCurrentUser env ≫= cu_id.
Definition current_role (env : Env) : option string := getCurrentUser env ≫= cu_role.
Definition effectiveAccountPlan (env : Env) : option string :=
  getCurrentUser env ≫= cu_effectiveAccountPlan.
Definition orgCreationDate (env : Env) : option string :=
  getCurrentUser env ≫= cu_orgCreationDate.

(** The fields [track] writes after the caller's properties. *)
Definition derived_fields (env : Env) (win : Window) : TrackEventProps :=
  let build := getGrowthBookBuild env in
  [ ("page_url", VStr (pathname (location win)));
    ("page_title", VStr "");
    ("source_ip", VStr "");
    ("url", VStr (protocol (location win) +:+ "//" +:+ host env win
                  +:+ pathname (location win)));
    ("doc_host", VStr (host env win));
    ("doc_search", VStr "");
    ("doc_path", VStr (pathname (location win)));
    ("referer", VStr (referer win));
    ("build_sha", VStr (sha build));
    ("build_date", VStr (date build));
    ("build_version", VStr (lastVersion build));
    ("account_plan", opt_val (effectiveAccountPlan env));
    ("org_creation_date", opt_val (orgCreationDate env));
    ("configFile", VBool (hasFileConfig env));
    ("role", if opt_truthy (current_id env) then opt_val (current_role env) else VStr "");
    ("org_hash", VStr (match current_org env with
                       | Some o => if JsString.truthy o then md5 o else ""
                       | None => ""
                       end));
    ("user_id_hash", VStr (match current_id env with
                           | Some i => if JsString.truthy i then md5 i else ""
                           | None => ""
                           end));
    ("user_id", if isCloud env then opt_val (current_id env) else VStr "");
    ("org", if isCloud env then opt_val (current_org env) else VStr "") ].

Definition trackProps (env : Env) (win : Window) (props : TrackEventProps)
  : TrackEventProps :=
  obj_literal props (derived_fields env win).

Definition jitsuOptions (env : Env) : JitsuOptions :=
  {| key := "js.y6nea.yo6e8isxplieotd6zxyeu5";
     log_level := "ERROR";
     tracking_host := "https://t.growthbook.io";
     cookie_name := "__growthbookid";
     capture_3rd_party_cookies := if isCloud env then Some ["_ga"] else None;
     randomize_url := true |}.

(** [track(event, props)]; [window = None] is a run where [window] is
    undefined (server-side rendering).  The arguments of
    [dataWareHouseTrack] are evaluated in order, so an exception of
    [getOrGeneratePageId] leaves the call after the device cookie was
    written and before anything else. *)
Definition track (env : Env) (window : option Window) (event : string)
    (props : TrackEventProps) : M (Completion unit) :=
  match window with
  | None => ret (Normal tt)
  | Some win =>
      let trackProps := trackProps env win props in
      let properties_json := JSON_stringify trackProps in
      device_id <- getOrGenerateDeviceId ;;
      page <- getOrGeneratePageId win ;;
      match page with
      | Abrupt e => ret (Abrupt e)
      | Normal page_id =>
          session_id <- getOrGenerateSessionId win ;;
          dataWareHouseTrack env win
            {| event_name := event;
               properties_json := properties_json;
               device_id := device_id;
               page_id := page_id;
               session_id := session_id;
               sdk_language := "react";
               sdk_version := "1.2.0";
               (* trackProps.url *)
               url := match obj_get "url" trackProps with
                      | Some (VStr u) => u
                      | _ => EmptyString
                      end;
               page_title := None; utm_source := None; utm_medium := None;
               utm_campaign := None; utm_term := None; utm_content := None;
               user_id := current_id env;
               user_attributes_json := "{}" |} ;;
          (if inTelemetryDebugMode env
           then emit (ConsoleLog "Telemetry Event - " event trackProps)
           else ret tt) ;;
          if negb (isTelemetryEnabled env) then ret (Normal tt)
          else
            current <- get_jitsu ;;
            client <- match current with
                      | Some c => ret c
                      | None => jitsuClient (jitsuOptions env)
                      end ;;
            emit (JitsuTrack client event trackProps) ;;
            ret (Normal tt)
      end
  end.

(** [parseSnapshotDimension(dimension)] *)
Record ParsedDimension := { type : string; dim_id : string }.

Definition parseSnapshotDimension (dimension : string) : ParsedDimension :=
  if negb (JsString.truthy dimension) then
    {| type := "none"; dim_id := "" |}
  else if JsString.eqb (JsString.substring dimension 0 (Some 4)) "pre:" then
    {| type := "predefined"; dim_id := JsString.substring dimension 4 None |}
  else if JsString.eqb (JsString.substring dimension 0 (Some 4)) "exp:" then
    {| type := "experiment";
       dim_id := md5 (JsString.substring dimension 4 None) |}
  else
    {| type := "user"; dim_id := md5 dimension |}.

End Functions.

(** A run of [track] calls, one after the other, on the same world. *)
Record Call := {
  call_env : Env;
  call_window : option Window;
  call_event : string;
  call_props : TrackEventProps;
}.

Fixpoint run `{Libs} (calls : list Call) (w : World) : World :=
  match calls with
  | [] => w
  | c :: rest =>
      run rest (track (call_env c) (call_window c) (call_event c)
                      (call_props c) w).2
  end.

(** *** Notions used to state the properties *)

(** The value the right-most entry for [k] gives it, if any. *)
Fixpoint last_assigned (k : string) (fields : TrackEventProps) : option Value :=
  match fields with
  | [] => None
  | (k', v) :: rest =>
      match last_assigned k rest with
      | Some v' => Some v'
      | None => if JsString.eqb k k' then Some v else None
      end
  end.

Section Outcome.
Context `{Libs}.

Definition device_attributes : CookieAttributes :=
  {| expires := ExpiresDays 365; sameSite := Strict |}.

(** The cookie's value when it is usable (present and not empty). *)
Definition usable (w : World) (name : string) : option string :=
  match cookies w !! name with
  | Some c => if JsString.truthy (cookie_value c) then Some (cookie_value c) else None
  | None => None
  end.

Definition session_attributes (win : Window) : CookieAttributes :=
  {| expires := ExpiresAt {| fullYear := fullYear (now win);
                             month := month (now win);
                             day := day (now win);
                             hours := hours (now win);
                             minutes := minutes (now win) + 30;
                             seconds := seconds (now win) |};
     sameSite := Strict |}.

Definition warehouse_effects (env : Env) (win : Window)
    (event : DataWarehouseTrackedEvent) : list Effect :=
  if JsString.truthy (dataWarehouseUrl env) then
    Fetch (dataWarehouseUrl env +:+ "/track?client_key=" +:+ GB_SDK_ID env)
      "POST" (JSON_stringify (event_object event))
      [("Accept", "application/json"); ("Content-Type", "application/json")]
    :: (if fetch_throws win && inTelemetryDebugMode env
        then [ConsoleError "Failed to fire tracking event";
              ConsoleErrorException]
        else [])
  else [].

(** The client a call hands the event to: the stored one, or a new one. *)
Definition client_for (env : Env) (w : World) : JitsuClient :=
  match jitsu w with
  | Some c => c
  | None => {| handle := handles w; options := jitsuOptions env |}
  end.

(** The value [getOrGeneratePageId] returns in a call of [track] from world
    [w] ([undefined] stands in when it throws). *)
Definition page_value (win : Window) (w : World) : Value :=
  match (getOrGeneratePageId win (getOrGenerateDeviceId w).2).1 with
  | Normal v => v
  | Abrupt _ => VUndefined
  end.

(** The event [track] passes to [dataWareHouseTrack] from world [w]. *)
Definition posted_event (env : Env) (win : Window) (event : string)
    (props : TrackEventProps) (w : World) : DataWarehouseTrackedEvent :=
  let r1 := getOrGenerateDeviceId w in
  let r2 := getOrGeneratePageId win r1.2 in
  let r3 := getOrGenerateSessionId win r2.2 in
  {| event_name := event;
     properties_json := JSON_stringify (trackProps env win props);
     device_id := r1.1;
     page_id := page_value win w;
     session_id := r3.1;
     sdk_language := "react";
     sdk_version := "1.2.0";
     url := match obj_get "url" (trackProps env win props) with
            | Some (VStr u) => u
            | _ => EmptyString
            end;
     page_title := None; utm_source := None; utm_medium := None;
     utm_campaign := None; utm_term := None; utm_content := None;
     user_id := current_id env;
     user_attributes_json := "{}" |}.

Definition device_effects (w : World) : list Effect :=
  [CookieGet DEVICE_ID_COOKIE;
   CookieSet DEVICE_ID_COOKIE (getOrGenerateDeviceId w).1 device_attributes].

Definition identifier_effects (win : Window) (w : World) : list Effect :=
  let r1 := getOrGenerateDeviceId w in
  let r2 := getOrGeneratePageId win r1.2 in
  let r3 := getOrGenerateSessionId win r2.2 in
  device_effects w
  ++ [CookieGet SESSION_ID_COOKIE;
      CookieSet SESSION_ID_COOKIE r3.1 (session_attributes win)].

Definition debug_effects (env : Env) (win : Window) (event : string)
    (props : TrackEventProps) : list Effect :=
  if inTelemetryDebugMode env
  then [ConsoleLog "Telemetry Event - " event (trackProps env win props)]
  else [].

Definition client_effects (env : Env) (win : Window) (event : string)
    (props : TrackEventProps) (w : World) : list Effect :=
  if isTelemetryEnabled env then
    match jitsu w with
    | Some c => []
    | None => [JitsuInit (client_for env w)]
    end ++ [JitsuTrack (client_for env w) event (trackProps env win props)]
  else [].

(** The trace of a call in the browser: cut short after the device cookie
    when [window.history.state] is [null]. *)
Definition track_effects (env : Env) (win : Window) (event : string)
    (props : TrackEventProps) (w : World) : list Effect :=
  match history_state win with
  | None => device_effects w
  | Some _ =>
      identifier_effects win w
      ++ warehouse_effects env win (posted_event env win event props w)
      ++ debug_effects env win event props
      ++ client_effects env win event props w
  end.


End Outcome.

(** The actions a computation adds to the trace. *)
Definition effects_of {A} (m : M A) (w : World) : list Effect :=
  drop (length (log w)) (log (m w).2).

Definition is_fetch (e : Effect) : bool :=
  match e with Fetch _ _ _ _ => true | _ => false end.

Definition is_jitsu_track (e : Effect) : bool :=
  match e with JitsuTrack _ _ _ => true | _ => false end.


(** A dispatch: an action that hands the event to one of the two collectors. *)
Definition is_dispatch (e : Effect) : bool := is_fetch e || is_jitsu_track e.

(** [carries e p]: the dispatch [e] transmits the property bag [p], either as
    the argument of the client's [track] or serialised in the
    [properties_json] field of the posted event. *)
Inductive carries `{Libs} : Effect -> TrackEventProps -> Prop :=
| carries_client c ev p : carries (JitsuTrack c ev p) p
| carries_warehouse u m h ev p :
    properties_json ev = JSON_stringify p ->
    carries (Fetch u m (JSON_stringify (event_object ev)) h) p.

(** [posts env e ev]: [e] is the request [dataWareHouseTrack] makes for the
    event [ev]: a POST to the warehouse's [/track] endpoint with the
    serialised event as its body. *)
Definition posts `{Libs} (env : Env) (e : Effect)
    (ev : DataWarehouseTrackedEvent) : Prop :=
  e = Fetch (dataWarehouseUrl env +:+ "/track?client_key=" +:+ GB_SDK_ID env)
        "POST" (JSON_stringify (event_object ev))
        [("Accept", "application/json"); ("Content-Type", "application/json")].

(** [delivers env event p l]: the trace [l] hands the event with the bag [p]
    to each collector that is switched on (the warehouse when its URL is
    configured, the analytics client when telemetry is enabled), and every
    dispatch in [l] carries [p]. *)
Definition delivers `{Libs} (env : Env) (event : string) (p : TrackEventProps)
    (l : list Effect) : Prop :=
  (JsString.truthy (dataWarehouseUrl env) = true ->
   exists e ev, e ∈ l /\ posts env e ev /\ event_name ev = event
                /\ properties_json ev = JSON_stringify p)
  /\ (isTelemetryEnabled env = true -> exists c, JitsuTrack c event p ∈ l)
  /\ Forall (fun e => is_dispatch e = true -> carries e p) l.

(** The identifiers returned by [n] successive calls of
    [getOrGenerateDeviceId], and the world they leave. *)
Fixpoint deviceIds `{Libs} (n : nat) (w : World) : list string * World :=
  match n with
  | O => ([], w)
  | S n' =>
      let (t, w') := getOrGenerateDeviceId w in
      let (ts, w'') := deviceIds n' w' in
      (t :: ts, w'')
  end.

(** The meaning of [/(localhost|127\.0\.0\.1)/i] on a host name: one of the
    two literals occurs in it, letter case ignored. *)
Definition matches_localhost (hostname : string) : Prop :=
  JsString.occurs_in "localhost" (JsString.lower hostname)
  \/ JsString.occurs_in "127.0.0.1" (JsString.lower hostname).

(** The meaning of the code's test [/weblens\.ai/] on a referrer: the text
    [weblens.ai] occurs somewhere in it. *)
Definition matches_referrer_pattern (referrer : string) : Prop :=
  JsString.occurs_in "weblens.ai" referrer.

(** The text after the first occurrence of [sep], if there is one. *)
Fixpoint text_after (sep s : string) : option string :=
  if String.prefix sep s then Some (JsString.drop (String.length sep) s)
  else match s with
       | EmptyString => None
       | String _ s' => text_after sep s'
       end.

(** The text before the first character that satisfies [stop]. *)
Fixpoint text_before (stop : ascii -> bool) (s : string) : string :=
  match s with
  | EmptyString => EmptyString
  | String c s' => if stop c then EmptyString else String c (text_before stop s')
  end.

Definition ends_authority (c : ascii) : bool :=
  bool_decide (c ∈ ["/"; "?"; "#"]%char).

Definition is_colon (c : ascii) : bool := bool_decide (c = ":"%char).

(** Spec-side: the host of an absolute URL, that is what stands between
    "://" and the next "/", "?" or "#", without user information and
    port. *)
Definition url_host (url : string) : string :=
  match text_after "://" url with
  | None => EmptyString
  | Some rest =>
      let authority := text_before ends_authority rest in
      let host_port := default authority (text_after "@" authority) in
      text_before is_colon host_port
  end.

(** [s] ends with [suffix]. *)
Definition ends_with (suffix s : string) : bool :=
  (String.length suffix <=? String.length s)%nat
  && JsString.eqb
       (JsString.drop (String.length s - String.length suffix) s) suffix.

(** Spec-side, after the claim's words: the referrer comes from the
    allow-listed domain, that is its host is [weblens.ai] or a subdomain. *)
Definition from_allow_listed_domain (referrer : string) : bool :=
  JsString.eqb (url_host referrer) "weblens.ai"
  || ends_with ".weblens.ai" (url_host referrer).

(** Spec-side: the text has a query part. *)
Definition has_query (url : string) : bool := JsString.includes "?" url.



(** Calls made while [window] is undefined. *)
Definition server_side (env : Env) (events : list (string * TrackEventProps))
  : list Call :=
  map (fun ep => {| call_env := env; call_window := None;
                    call_event := ep.1; call_props := ep.2 |}) events.

(** The world when the module is loaded in a page: the browser's cookie jar
    and random stream are whatever they are, the module-level variables are
    in their initial state. *)
Definition page_load (jar : gmap string Cookie) (entropy : nat) : World :=
  {| cookies := jar; pageIds := ∅; jitsu := None; entropy := entropy;
     handles := 0; log := [] |}.

Close Scope track_scope.

End Track.

(** Concrete inputs on which the module is run in the examples below.  The
    three library functions are stand-ins with the right types; nothing that
    is proved for every [Libs] depends on them. *)
Module TrackSamples.
Import Track.

Definition double_quote : ascii := ascii_of_nat 34.

Definition quoted (s : string) : string :=
  String double_quote (s +:+ String double_quote EmptyString).

Definition show_value (v : Value) : option string :=
  match v with
  | VUndefined => None
  | VNull => Some "null"
  | VBool b => Some (if b then "true" else "false")
  | VNum n => Some (pretty n)
  | VStr s => Some (quoted s)
  | VInherited _ => None
  end.

(** A serialiser without escaping: enough for the identifiers used here. *)
Fixpoint show_fields (o : TrackEventProps) : list string :=
  match o with
  | [] => []
  | (k, v) :: rest =>
      match show_value v with
      | Some t => (quoted k +:+ ":" +:+ t) :: show_fields rest
      | None => show_fields rest
      end
  end.

Definition show_object (o : TrackEventProps) : string :=
  "{" +:+ String.concat "," (show_fields o) +:+ "}".

Definition libs : Libs :=
  {| md5 := fun s => "md5(" +:+ s +:+ ")";
     uuidv4 := fun n => "uuid-" +:+ pretty n;
     JSON_stringify := show_object |}.

Definition user : User :=
  {| cu_org := Some "org_1"; cu_id := Some "u_123"; cu_role := Some "admin";
     cu_effectiveAccountPlan := Some "oss"; cu_orgCreationDate := None |}.

(** A self-hosted deployment with the warehouse endpoint configured. *)
Definition self_hosted : Env :=
  {| getGrowthBookBuild := {| sha := "abc"; date := "2024-05-01";
                              lastVersion := "3.0.0" |};
     hasFileConfig := false;
     inTelemetryDebugMode := false;
     isCloud := false;
     isTelemetryEnabled := true;
     dataWarehouseUrl := "https://warehouse.example";
     GB_SDK_ID := "sdk-1";
     getCurrentUser := Some user |}.

Definition at_time : DateFields :=
  {| fullYear := 2024; month := 4; day := 1; hours := 9; minutes := 45;
     seconds := 0 |}.

(** A page served from the developer's own machine. *)
Definition local_page : Window :=
  {| location := {| protocol := "http:"; hostname := "localhost";
                    pathname := "/features" |};
     referrer := None;
     history_state := Some {| state_key := Some "k1" |};
     now := at_time;
     fetch_throws := false |}.

(** A page of a company's own installation. *)
Definition company_page : Window :=
  {| location := {| protocol := "https:"; hostname := "growthbook.acme.example";
                    pathname := "/experiments" |};
     referrer := Some "https://docs.weblens.ai/start";
     history_state := Some {| state_key := Some "k2" |};
     now := at_time;
     fetch_throws := false |}.


(** A page reached from another site, through a link that mentions the
    allow-listed name in its query. *)
Definition foreign_referrer : string := "https://evil.example/?from=weblens.ai".

Definition page_from_elsewhere : Window :=
  {| location := location company_page;
     referrer := Some foreign_referrer;
     history_state := Some {| state_key := Some "k3" |};
     now := at_time;
     fetch_throws := false |}.

(** A page reached from the documentation, with a query in the link. *)
Definition page_from_docs : Window :=
  {| location := location company_page;
     referrer := Some "https://docs.weblens.ai/start?token=abc";
     history_state := Some {| state_key := Some "k4" |};
     now := at_time;
     fetch_throws := false |}.

End TrackSamples.

(** ** The REST handler [updateExperiment] *)

Module UpdateExperiment.

(** A field of the request body: absent ([undefined]), [null], or a value. *)
Inductive Optional (A : Type) :=
| Absent
| Null
| Present (a : A).
Arguments Absent {A}.
Arguments Null {A}.
Arguments Present {A} a.

(** [x != null] *)
Definition not_nullish {A} (x : Optional A) : bool :=
  match x with Present _ => true | _ => false end.

Record ExposureQuery := { query_id : string }.
Record Queries := { exposure : option (list ExposureQuery) }.
Record DataSourceSettings := { queries : option Queries }.
Record DataSource := { datasource_id : string; settings : DataSourceSettings }.

Record Experiment := {
  id : string;
  trackingKey : string;
  datasource : string;
  exposureQueryId : string;
  project : option string;
  name : string;
}.

(** The partial-update payload. *)
Record Body := {
  body_project : option string;
  body_assignmentQueryId : Optional string;
  body_trackingKey : Optional string;
  body_name : Optional string;
}.

Record Request := { params_id : string; body : Body }.

(** What a run of the handler can throw: an [Error] the handler builds itself,
    or what [ensureProjectsExist] and [throwPermissionError] raise. *)
Inductive Thrown :=
| Error (message : string)
| ProjectsDoNotExist (projects : list string)
| PermissionError.

(** The collaborators the handler imports (the experiment and data-source
    models, the permission checker, the API serialisers).  [Ctx] is
    [req.context]: the caller, its permissions and the database the models
    read and write; only [updateExperimentToDb] returns a new one. *)
Class Backend := {
  Ctx : Type;
  Changes : Type;
  ApiExperiment : Type;
  getExperimentById : Ctx -> string -> option Experiment;
  ensureProjectsExist : Ctx -> list string -> bool;
  canUpdateExperiment : Ctx -> Experiment -> Body -> bool;
  getDataSourceById : Ctx -> string -> option DataSource;
  getExperimentByTrackingKey : Ctx -> string -> option Experiment;
  updateExperimentApiPayloadToInterface : Body -> Experiment -> Changes;
  updateExperimentToDb : Ctx -> Experiment -> Changes -> option Experiment * Ctx;
  toExperimentApiInterface : Ctx -> Experiment -> ApiExperiment;
}.

Section Handler.
Context `{Backend}.

(** The calls the handler makes on its collaborators, in order. *)
Inductive Operation :=
| GetExperimentById (id : string)
| EnsureProjectsExist (projects : list string)
| CanUpdateExperiment (experiment : Experiment) (body : Body)
| ThrowPermissionError
| GetDataSourceById (id : string)
| GetExperimentByTrackingKey (trackingKey : string)
| UpdateExperimentToDb (experiment : Experiment) (changes : Changes)
| ToExperimentApiInterface (experiment : Experiment).

Record HandlerState := { context : Ctx; calls : list Operation }.

Record UpdateExperimentResponse := { experiment : ApiExperiment }.

(** The handler's monad: state (context and call trace) and exceptions. *)
Definition H_ (A : Type) : Type := HandlerState -> (Thrown + A) * HandlerState.

Definition ret {A} (a : A) : H_ A := fun s => (inr a, s).

Definition throw {A} (e : Thrown) : H_ A := fun s => (inl e, s).

Definition bind {A B} (m : H_ A) (k : A -> H_ B) : H_ B := fun s =>
  match m s with
  | (inl e, s') => (inl e, s')
  | (inr a, s') => k a s'
  end.

Declare Scope handler_scope.
Delimit Scope handler_scope with handler.
Notation "x <- m ;; k" := (bind m (fun x => k))
  (at level 100, m at next level, right associativity) : handler_scope.
Notation "m ;; k" := (bind m (fun _ => k))
  (at level 100, right associativity) : handler_scope.
Open Scope handler_scope.

(** A read of the context, recorded in the trace. *)
Definition call {A} (op : Operation) (f : Ctx -> A) : H_ A := fun s =>
  (inr (f (context s)),
   {| context := context s; calls := calls s ++ [op] |}).

Definition do_updateExperimentToDb (e : Experiment) (c : Changes)
  : H_ (option Experiment) := fun s =>
  let (r, ctx') := updateExperimentToDb (context s) e c in
  (inr r, {| context := ctx'; calls := calls s ++ [UpdateExperimentToDb e c] |}).

(** [datasource.settings.queries?.exposure?.some(p)]: [None] is [undefined]. *)
Definition exposure_some (d : DataSource) (p : ExposureQuery -> bool)
  : option bool :=
  q ← queries (settings d); l ← exposure q; Some (existsb p l).

(** [!x] on the result of an optional chain. *)
Definition js_not (x : option bool) : bool :=
  match x with Some b => negb b | None => true end.

Definition updateExperiment (req : Request) : H_ UpdateExperimentResponse :=
  found <- call (GetExperimentById (params_id req))
             (fun c => getExperimentById c (params_id req)) ;;
  match found with
  | None => throw (Error "Could not find the experiment to update")
  | Some experiment =>
      match body_project (body req) with
      | Some p =>
          if JsString.truthy p then
            ok <- call (EnsureProjectsExist [p])
                    (fun c => ensureProjectsExist c [p]) ;;
            if ok then ret tt else throw (ProjectsDoNotExist [p])
          else ret tt
      | None => ret tt
      end ;;
      allowed <- call (CanUpdateExperiment experiment (body req))
                   (fun c => canUpdateExperiment c experiment (body req)) ;;
      (if negb allowed
       then call ThrowPermissionError (fun _ => tt) ;; throw PermissionError
       else ret tt) ;;
      source <- call (GetDataSourceById (datasource experiment))
                  (fun c => getDataSourceById c (datasource experiment)) ;;
      match source with
      | None => throw (Error "No datasource for this experiment was found.")
      | Some datasource =>
          match body_assignmentQueryId (body req) with
          | Present q =>
              if negb (JsString.eqb q (exposureQueryId experiment))
                 && js_not (exposure_some datasource
                              (fun e => JsString.eqb (query_id e) q))
              then throw (Error ("Unrecognized assignment query ID: " +:+ q))
              else ret tt
          | _ => ret tt
          end ;;
          match body_trackingKey (body req) with
          | Present k =>
              if negb (JsString.eqb k (trackingKey experiment)) then
                existingByTrackingKey <-
                  call (GetExperimentByTrackingKey k)
                    (fun c => getExperimentByTrackingKey c k) ;;
                match existingByTrackingKey with
                | Some _ =>
                    throw (Error ("Experiment with tracking key already exists: "
                                  +:+ k))
                | None => ret tt
                end
              else ret tt
          | _ => ret tt
          end ;;
          let changes :=
            updateExperimentApiPayloadToInterface (body req) experiment in
          updatedExperiment <- do_updateExperimentToDb experiment changes ;;
          match updatedExperiment with
          | None => throw (Error "Error happened during updating experiment.")
          | Some updated =>
              apiExperiment <- call (ToExperimentApiInterface updated)
                                 (fun c => toExperimentApiInterface c updated) ;;
              ret {| experiment := apiExperiment |}
          end
      end
  end.

(** A request served on a context, from an empty trace. *)
Definition serve (ctx : Ctx) (req : Request)
  : (Thrown + UpdateExperimentResponse) * HandlerState :=
  updateExperiment req {| context := ctx; calls := [] |}.

(** The ids of the exposure queries configured on a data source. *)
Definition exposure_ids (d : DataSource) : list string :=
  match queries (settings d) with
  | Some q => match exposure q with
              | Some l => map query_id l
              | None => []
              end
  | None => []
  end.

(** The request passes the project check (step 2): it names no project, or
    the project it names exists. *)
Definition projects_ok (ctx : Ctx) (b : Body) : bool :=
  match body_project b with
  | Some p => if JsString.truthy p then ensureProjectsExist ctx [p] else true
  | None => true
  end.

(** The request passes the assignment-query check (step 5). *)
Definition assignment_ok (e : Experiment) (d : DataSource) (b : Body) : bool :=
  match body_assignmentQueryId b with
  | Present q =>
      JsString.eqb q (exposureQueryId e)
      || bool_decide (q ∈ exposure_ids d)
  | _ => true
  end.

(** The request gets as far as the tracking-key check (step 6): the project
    exists, the caller may update, the data source is found and the
    assignment query is accepted. *)
Definition reaches_tracking_key_check (ctx : Ctx) (e : Experiment) (b : Body)
  : bool :=
  projects_ok ctx b
  && canUpdateExperiment ctx e b
  && match getDataSourceById ctx (datasource e) with
     | Some d => assignment_ok e d b
     | None => false
     end.

Definition is_update (op : Operation) : bool :=
  match op with UpdateExperimentToDb _ _ => true | _ => false end.

Definition is_tracking_key_lookup (op : Operation) : bool :=
  match op with GetExperimentByTrackingKey _ => true | _ => false end.

Close Scope handler_scope.

End Handler.

End UpdateExperiment.

(** An in-memory data layer on which the handler is run in the examples
    below: experiments and data sources in lists, projects by name, one flag
    for the caller's right to update. *)
Module HandlerSamples.
Import UpdateExperiment.

Record Store := {
  experiments : list Experiment;
  datasources : list DataSource;
  projects : list string;
  may_update : bool;
}.

Definition apply_payload (b : Body) (e : Experiment) : Experiment :=
  {| id := id e;
     trackingKey := match body_trackingKey b with
                    | Present k => k
                    | _ => trackingKey e
                    end;
     datasource := datasource e;
     exposureQueryId := match body_assignmentQueryId b with
                        | Present q => q
                        | _ => exposureQueryId e
                        end;
     project := match body_project b with
                | Some p => Some p
                | None => project e
                end;
     name := match body_name b with Present n => n | _ => name e end |}.

Definition replace_experiment (updated : Experiment) (s : Store) : Store :=
  {| experiments := map (fun e => if JsString.eqb (id e) (id updated)
                                  then updated else e) (experiments s);
     datasources := datasources s;
     projects := projects s;
     may_update := may_update s |}.

Definition backend : Backend :=
  {| Ctx := Store;
     Changes := Experiment;
     ApiExperiment := Experiment;
     getExperimentById s i :=
       List.find (fun e => JsString.eqb (id e) i) (experiments s);
     ensureProjectsExist s ps :=
       forallb (fun p => existsb (JsString.eqb p) (projects s)) ps;
     canUpdateExperiment s _ _ := may_update s;
     getDataSourceById s i :=
       List.find (fun d => JsString.eqb (datasource_id d) i) (datasources s);
     getExperimentByTrackingKey s k :=
       List.find (fun e => JsString.eqb (trackingKey e) k) (experiments s);
     updateExperimentApiPayloadToInterface b e := apply_payload b e;
     updateExperimentToDb s _ updated :=
       (Some updated, replace_experiment updated s);
     toExperimentApiInterface _ e := e |}.

Definition checkout_test : Experiment :=
  {| id := "exp_1"; trackingKey := "checkout-test"; datasource := "ds_1";
     exposureQueryId := "user_id"; project := None;
     name := "Checkout test" |}.

Definition pricing_test : Experiment :=
  {| id := "exp_2"; trackingKey := "pricing-test"; datasource := "ds_1";
     exposureQueryId := "user_id"; project := None;
     name := "Pricing test" |}.

Definition warehouse : DataSource :=
  {| datasource_id := "ds_1";
     settings :=
       {| queries :=
            Some {| exposure := Some [ {| query_id := "user_id" |};
                                       {| query_id := "anonymous_id" |} ] |} |} |}.

Definition store : Store :=
  {| experiments := [checkout_test; pricing_test];
     datasources := [warehouse];
     projects := ["growth"];
     may_update := true |}.

(** The same data, seen by a caller who may not update experiments. *)
Definition read_only_store : Store :=
  {| experiments := [checkout_test; pricing_test];
     datasources := [warehouse];
     projects := ["growth"];
     may_update := false |}.

Definition request (b : Body) : Request := {| params_id := "exp_1"; body := b |}.

(** Takes the tracking key of the other experiment. *)
Definition duplicate_key : Body :=
  {| body_project := None; body_assignmentQueryId := Absent;
     body_trackingKey := Present "pricing-test"; body_name := Absent |}.

(** Names an exposure query the data source does not have. *)
Definition unknown_query : Body :=
  {| body_project := None; body_assignmentQueryId := Present "device_id";
     body_trackingKey := Absent; body_name := Absent |}.

(** Both at once. *)
Definition duplicate_key_unknown_query : Body :=
  {| body_project := None; body_assignmentQueryId := Present "device_id";
     body_trackingKey := Present "pricing-test"; body_name := Absent |}.

(** Repeats the current tracking key and renames the experiment. *)
Definition same_key : Body :=
  {| body_project := None; body_assignmentQueryId := Absent;
     body_trackingKey := Present "checkout-test";
     body_name := Present "Checkout test v2" |}.

End HandlerSamples.

(** ** The domain trackers of [track.ts]: [trackSnapshot], [trackReport] *)

Module Trackers.
Import Track.

(** The constant imported from [shared/constants]. *)
Class Constants := { DEFAULT_STATS_ENGINE : string }.

(** ["create" | "update" | "delete"] *)
Inductive Change := Create | Update | Delete.

Definition change_name (c : Change) : string :=
  match c with
  | Create => "create"
  | Update => "update"
  | Delete => "delete"
  end.

(** The fields the module reads of a snapshot and of a report
    ([back-end/types/experiment-snapshot], [back-end/types/report]); an
    [option] is a field that may be missing, [undefined] or [null].  The
    tuning parameter is a number the module only passes on: integers stand
    for the numbers. *)
Record Dimension := { dimension_name : string }.

Record SnapshotSettings := {
  dimensions : list Dimension;
  regressionAdjustmentEnabled : option bool;
  skipPartialData : option bool;
  activationMetric : option string;
  queryFilter : option string;
  segment : option string;
}.

Record AnalysisSettings := {
  statsEngine : option string;
  sequentialTesting : option bool;
  sequentialTestingTuningParameter : option Z;
}.

Record ExperimentSnapshotAnalysis := {
  analysis_settings : option AnalysisSettings;
}.

Record ExperimentSnapshotInterface := {
  snapshot_id : string;
  snapshot_experiment : string;
  snapshot_settings : SnapshotSettings;
  analyses : option (list ExperimentSnapshotAnalysis);
}.

Record ReportArgs := {
  args_dimension : option string;
  args_statsEngine : option string;
  args_regressionAdjustmentEnabled : option bool;
  args_sequentialTestingEnabled : option bool;
  args_sequentialTestingTuningParameter : option Z;
  args_skipPartialData : option bool;
  args_activationMetric : option string;
  args_queryFilter : option string;
  args_segment : option string;
}.

Record ExperimentReportInterface := {
  report_id : string;
  experimentId : string;
  args : ReportArgs;
}.

(** [TrackSnapshotProps] *)
Record TrackSnapshotProps := {
  id : string;
  source : string;
  experiment : string;
  engine : string;
  datasource_type : option string;
  regression_adjustment_enabled : bool;
  sequential_testing_enabled : bool;
  sequential_testing_tuning_parameter : option Z;
  skip_partial_data : bool;
  activation_metric_selected : bool;
  query_filter_selected : bool;
  segment_selected : bool;
  dimension_type : string;
  dimension_id : string;
}.

(** [!!x] on a possibly-missing boolean. *)
Definition flag (x : option bool) : bool := default false x.

(** A possibly-missing number as a property value. *)
Definition opt_num (x : option Z) : Value :=
  match x with Some n => VNum n | None => VUndefined end.

(** [string | null] as a property value. *)
Definition nullable (x : option string) : Value :=
  match x with Some s => VStr s | None => VNull end.

(** [a || b] on strings. *)
Definition or_string (a b : string) : string :=
  if JsString.truthy a then a else b.

(** The object a [TrackSnapshotProps] literal denotes, keys in the order the
    two builders write them. *)
Definition props_object (p : TrackSnapshotProps) : TrackEventProps :=
  [ ("id", VStr (id p));
    ("source", VStr (source p));
    ("experiment", VStr (experiment p));
    ("engine", VStr (engine p));
    ("datasource_type", nullable (datasource_type p));
    ("regression_adjustment_enabled", VBool (regression_adjustment_enabled p));
    ("sequential_testing_enabled", VBool (sequential_testing_enabled p));
    ("sequential_testing_tuning_parameter",
     opt_num (sequential_testing_tuning_parameter p));
    ("skip_partial_data", VBool (skip_partial_data p));
    ("activation_metric_selected", VBool (activation_metric_selected p));
    ("query_filter_selected", VBool (query_filter_selected p));
    ("segment_selected", VBool (segment_selected p));
    ("dimension_type", VStr (dimension_type p));
    ("dimension_id", VStr (dimension_id p)) ].

Section Functions.
Context `{Libs} `{Constants}.

(** [snapshot.settings.dimensions.map((d) => d.id).join(", ") || ""] *)
Definition joined_dimensions (s : ExperimentSnapshotInterface) : string :=
  or_string
    (String.concat ", " (map dimension_name (dimensions (snapshot_settings s))))
    "".

(** [snapshot.analyses?.[0]] *)
Definition first_analysis (s : ExperimentSnapshotInterface)
  : option ExperimentSnapshotAnalysis :=
  analyses s ≫= head.

Definition getTrackingPropsFromSnapshot (snapshot : ExperimentSnapshotInterface)
    (source : string) (datasourceType : option string) : TrackSnapshotProps :=
  let parsedDim := parseSnapshotDimension (joined_dimensions snapshot) in
  let analysis := first_analysis snapshot ≫= analysis_settings in
  {| id := if JsString.truthy (snapshot_id snapshot)
           then md5 (snapshot_id snapshot) else "";
     source := source;
     experiment := if JsString.truthy (snapshot_experiment snapshot)
                   then md5 (snapshot_experiment snapshot) else "";
     engine := or_string (default "" (analysis ≫= statsEngine))
                 DEFAULT_STATS_ENGINE;
     datasource_type := datasourceType;
     regression_adjustment_enabled :=
       flag (regressionAdjustmentEnabled (snapshot_settings snapshot));
     sequential_testing_enabled := flag (analysis ≫= sequentialTesting);
     sequential_testing_tuning_parameter :=
       Some (default (-99)%Z (analysis ≫= sequentialTestingTuningParameter));
     skip_partial_data := flag (skipPartialData (snapshot_settings snapshot));
     activation_metric_selected :=
       opt_truthy (activationMetric (snapshot_settings snapshot));
     query_filter_selected :=
       opt_truthy (queryFilter (snapshot_settings snapshot));
     segment_selected := opt_truthy (segment (snapshot_settings snapshot));
     dimension_type := type parsedDim;
     dimension_id := dim_id parsedDim |}.

Definition getTrackingPropsFromReport (report : ExperimentReportInterface)
    (source : string) (datasourceType : option string) : TrackSnapshotProps :=
  let parsedDim :=
    parseSnapshotDimension (default "" (args_dimension (args report))) in
  {| id := if JsString.truthy (report_id report)
           then md5 (report_id report) else "";
     source := source;
     experiment := if JsString.truthy (experimentId report)
                   then md5 (experimentId report) else "";
     engine := or_string (default "" (args_statsEngine (args report)))
                 DEFAULT_STATS_ENGINE;
     datasource_type := datasourceType;
     regression_adjustment_enabled :=
       flag (args_regressionAdjustmentEnabled (args report));
     sequential_testing_enabled :=
       flag (args_sequentialTestingEnabled (args report));
     sequential_testing_tuning_parameter :=
       args_sequentialTestingTuningParameter (args report);
     skip_partial_data := flag (args_skipPartialData (args report));
     activation_metric_selected :=
       opt_truthy (args_activationMetric (args report));
     query_filter_selected := opt_truthy (args_queryFilter (args report));
     segment_selected := opt_truthy (args_segment (args report));
     dimension_type := type parsedDim;
     dimension_id := dim_id parsedDim |}.

(** The properties [trackSnapshot] hands to [track]: the projection of the
    snapshot, or the placeholder when the API returned none. *)
Definition snapshot_props (source : string) (datasourceType : option string)
    (snapshot : option ExperimentSnapshotInterface) : TrackEventProps :=
  match snapshot with
  | Some s => props_object (getTrackingPropsFromSnapshot s source datasourceType)
  | None => [("error", VStr "no snapshot object returned by API")]
  end.

Definition report_props (source : string) (datasourceType : option string)
    (report : option ExperimentReportInterface) : TrackEventProps :=
  match report with
  | Some r => props_object (getTrackingPropsFromReport r source datasourceType)
  | None => [("error", VStr "no report object returned by API")]
  end.

(** [trackSnapshot(event, source, datasourceType, snapshot)]; the properties
    are copied by the spread [{ ...trackingProps }]. *)
Definition trackSnapshot (env : Env) (window : option Window) (event : Change)
    (source : string) (datasourceType : option string)
    (snapshot : option ExperimentSnapshotInterface) : M (Completion unit) :=
  track env window ("Experiment Snapshot: " +:+ change_name event)
    (obj_literal (snapshot_props source datasourceType snapshot) []).

(** [trackReport(event, source, datasourceType, report)] *)
Definition trackReport (env : Env) (window : option Window) (event : Change)
    (source : string) (datasourceType : option string)
    (report : option ExperimentReportInterface) : M (Completion unit) :=
  track env window ("Experiment Report: " +:+ change_name event)
    (obj_literal (report_props source datasourceType report) []).

End Functions.




Definition is_cookie_set (e : Effect) : bool :=
  match e with CookieSet _ _ _ => true | _ => false end.







(** Sample inputs. *)
Definition constants : Constants := {| DEFAULT_STATS_ENGINE := "bayesian" |}.

(** Two page views in a self-hosted installation. *)
Definition two_views : list Call :=
  [ {| call_env := TrackSamples.self_hosted;
       call_window := Some TrackSamples.company_page;
       call_event := "View experiment"; call_props := [] |};
    {| call_env := TrackSamples.self_hosted;
       call_window := Some TrackSamples.local_page;
       call_event := "View features";
       call_props := [("tab", VStr "all")] |} ].

(** A snapshot broken down by a predefined dimension and an experiment one. *)
Definition two_dimension_snapshot : ExperimentSnapshotInterface :=
  {| snapshot_id := "snp_1";
     snapshot_experiment := "exp_1";
     snapshot_settings :=
       {| dimensions := [ {| dimension_name := "pre:date" |};
                          {| dimension_name := "exp:country" |} ];
          regressionAdjustmentEnabled := Some true;
          skipPartialData := None;
          activationMetric := None;
          queryFilter := Some "";
          segment := None |};
     analyses := Some [] |}.

(** A report on the same experiment, broken down by a user dimension. *)
Definition sample_report : ExperimentReportInterface :=
  {| report_id := "rep_1";
     experimentId := "exp_1";
     args := {| args_dimension := Some "country";
                args_statsEngine := None;
                args_regressionAdjustmentEnabled := None;
                args_sequentialTestingEnabled := None;
                args_sequentialTestingTuningParameter := None;
                args_skipPartialData := None;
                args_activationMetric := None;
                args_queryFilter := None;
                args_segment := None |} |}.


End Trackers.

(** ** Notions used to state more about the handler *)

Module HandlerNotions.
Import UpdateExperiment.

Section WithBackend.
Context `{Backend}.

(** The request passes the tracking-key check (step 6): it has no tracking
    key, repeats the current one, or names one no experiment uses. *)
Definition tracking_key_ok (ctx : Ctx) (e : Experiment) (b : Body) : bool :=
  match body_trackingKey b with
  | Present k =>
      JsString.eqb k (trackingKey e)
      || match getExperimentByTrackingKey ctx k with
         | Some _ => false
         | None => true
         end
  | _ => true
  end.

(** The request passes every check made before the update. *)
Definition passes_all_checks (ctx : Ctx) (e : Experiment) (b : Body) : bool :=
  reaches_tracking_key_check ctx e b && tracking_key_ok ctx e b.

(** The updates found in a trace of calls. *)
Definition updates (l : list Operation) : list Operation :=
  List.filter is_update l.

Definition is_project_check (op : Operation) : bool :=
  match op with EnsureProjectsExist _ => true | _ => false end.

Definition is_permission_check (op : Operation) : bool :=
  match op with CanUpdateExperiment _ _ => true | _ => false end.

Definition is_datasource_lookup (op : Operation) : bool :=
  match op with GetDataSourceById _ => true | _ => false end.

Definition is_serialisation (op : Operation) : bool :=
  match op with ToExperimentApiInterface _ => true | _ => false end.

End WithBackend.

(** The sample data layer, with an update that returns no result. *)
Definition failing_backend : Backend :=
  {| Ctx := HandlerSamples.Store;
     Changes := Experiment;
     ApiExperiment := Experiment;
     getExperimentById := getExperimentById (Backend := HandlerSamples.backend);
     ensureProjectsExist :=
       ensureProjectsExist (Backend := HandlerSamples.backend);
     canUpdateExperiment :=
       canUpdateExperiment (Backend := HandlerSamples.backend);
     getDataSourceById := getDataSourceById (Backend := HandlerSamples.backend);
     getExperimentByTrackingKey :=
       getExperimentByTrackingKey (Backend := HandlerSamples.backend);
     updateExperimentApiPayloadToInterface := HandlerSamples.apply_payload;
     updateExperimentToDb s _ _ := (None, s);
     toExperimentApiInterface _ e := e |}.

(** Renames the experiment and moves it to an unknown project. *)
Definition unknown_project : Body :=
  {| body_project := Some "retention"; body_assignmentQueryId := Absent;
     body_trackingKey := Absent; body_name := Present "Checkout test v2" |}.

(** Renames the experiment, with an empty project. *)
Definition empty_project : Body :=
  {| body_project := Some ""; body_assignmentQueryId := Absent;
     body_trackingKey := Absent; body_name := Present "Checkout test v2" |}.

(** The sample store after its data source was removed. *)
Definition store_without_datasource : HandlerSamples.Store :=
  {| HandlerSamples.experiments := HandlerSamples.experiments HandlerSamples.store;
     HandlerSamples.datasources := [];
     HandlerSamples.projects := HandlerSamples.projects HandlerSamples.store;
     HandlerSamples.may_update := true |}.

End HandlerNotions.

(** * Properties *)

(** ** JavaScript strings *)

Module JsStringFacts.
Import JsString.

#[local] Arguments String.append : simpl nomatch.

Lemma truthy_true s : truthy s = true <-> s <> EmptyString.
Proof. destruct s; simpl; split; congruence. Qed.

Lemma eqb_eq a b : eqb a b = true <-> a = b.
Proof. unfold eqb. apply bool_decide_eq_true. Qed.

Lemma drop_app p s : drop (String.length p) (p +:+ s) = s.
Proof. induction p as [|c p IH]; simpl; auto. Qed.

Lemma take_app p s : take (String.length p) (p +:+ s) = p.
Proof. induction p as [|c p IH]; simpl; [reflexivity | now rewrite IH]. Qed.

Lemma take_drop n s : take n s +:+ drop n s = s.
Proof.
  revert s; induction n as [|n IH]; intros [|c s]; simpl; auto.
  now rewrite IH.
Qed.

Lemma take_length_le n s : (String.length (take n s) <= n)%nat.
Proof.
  revert s; induction n as [|n IH]; intros [|c s]; simpl; auto with arith.
Qed.

Lemma take_all n s : (String.length s <= n)%nat -> take n s = s.
Proof.
  revert s; induction n as [|n IH]; intros [|c s]; simpl; intros H;
    try reflexivity; try lia.
  rewrite IH; [reflexivity | lia].
Qed.

Lemma length_drop n s : String.length (drop n s) = (String.length s - n)%nat.
Proof.
  revert s; induction n as [|n IH]; intros [|c s]; simpl; auto with arith.
Qed.

(** [substring(0, n)] is the prefix of length [n], [substring(n)] the rest. *)
Lemma substring_head s n : substring s 0 (Some n) = take n s.
Proof.
  unfold substring. simpl.
  rewrite Nat.sub_0_r.
  destruct (Nat.le_ge_cases n (String.length s)) as [H|H].
  - now rewrite Nat.min_l.
  - rewrite Nat.min_r by assumption.
    rewrite !take_all; auto.
Qed.

Lemma substring_tail s n : substring s n None = drop n s.
Proof.
  unfold substring.
  assert (Hm : Nat.min (Nat.min n (String.length s)) (String.length s)
               = Nat.min n (String.length s)) by lia.
  assert (HM : Nat.max (Nat.min n (String.length s)) (String.length s)
               = String.length s) by lia.
  rewrite Hm, HM.
  destruct (Nat.le_ge_cases n (String.length s)) as [H|H].
  - rewrite Nat.min_l by assumption.
    apply take_all. rewrite length_drop. lia.
  - rewrite Nat.min_r by assumption.
    rewrite Nat.sub_diag. simpl.
    clear Hm HM. revert n H.
    induction s as [|c s IH]; intros [|n] H; simpl in *; auto; try lia.
    apply IH. lia.
Qed.

(** [String.prefix] is "starts with". *)
Lemma prefix_app p s : String.prefix p (p +:+ s) = true.
Proof.
  induction p as [|c p IH]; simpl; [destruct s; reflexivity|].
  destruct (ascii_dec c c); [assumption | congruence].
Qed.

Lemma prefix_split p s :
  String.prefix p s = true -> s = p +:+ drop (String.length p) s.
Proof.
  revert s; induction p as [|c p IH]; intros s H; simpl in *.
  - reflexivity.
  - destruct s as [|d s]; simpl in H; [discriminate|].
    destruct (ascii_dec c d) as [->|]; [|discriminate].
    simpl. f_equal. now apply IH.
Qed.

Lemma prefix_take p s :
  String.prefix p s = true <-> take (String.length p) s = p.
Proof.
  split.
  - intros H. rewrite (prefix_split _ _ H) at 1. apply take_app.
  - intros H. rewrite <- (take_drop (String.length p) s), H.
    apply prefix_app.
Qed.

Lemma includes_cons pat c s :
  includes pat (String c s) = String.prefix pat (String c s) || includes pat s.
Proof. reflexivity. Qed.

Lemma includes_spec pat s :
  includes pat s = true <-> exists a b, s = a +:+ pat +:+ b.
Proof.
  induction s as [|c s IH].
  - simpl. rewrite orb_false_r. split.
    + intros H. exists EmptyString, EmptyString.
      destruct pat; [reflexivity | discriminate].
    + intros (a & b & H). destruct a; simpl in H.
      * destruct pat; [reflexivity | discriminate].
      * discriminate.
  - rewrite includes_cons, orb_true_iff, IH. split.
    + intros [H | (a & b & ->)].
      * exists EmptyString, (drop (String.length pat) (String c s)).
        now apply prefix_split.
      * exists (String c a), b. reflexivity.
    + intros (a & b & H). destruct a as [|d a]; simpl in H.
      * left. rewrite H. apply prefix_app.
      * right. injection H as _ ->. eauto.
Qed.

End JsStringFacts.

(** ** Hosts of referrers *)

Module ReferrerFacts.
Import Track.

#[local] Arguments String.append : simpl nomatch.

Lemma app_string_assoc (a b c : string) : (a +:+ b) +:+ c = a +:+ b +:+ c.
Proof. induction a as [|x a IH]; simpl; [reflexivity | now rewrite IH]. Qed.

Lemma app_string_nil_r (a : string) : a +:+ "" = a.
Proof. induction a as [|x a IH]; simpl; [reflexivity | now rewrite IH]. Qed.

Lemma occurs_in_part pat b t a :
  JsString.occurs_in pat t -> JsString.occurs_in pat (b +:+ t +:+ a).
Proof.
  intros (b' & a' & ->). exists (b +:+ b'), (a' +:+ a).
  rewrite !app_string_assoc. reflexivity.
Qed.

Lemma text_after_part sep s t :
  text_after sep s = Some t -> exists b, s = b +:+ sep +:+ t.
Proof.
  induction s as [|c s IH]; cbn [text_after].
  - destruct (String.prefix sep "") eqn:E; [|discriminate].
    intros [= <-]. exists EmptyString.
    apply JsStringFacts.prefix_split in E. exact E.
  - destruct (String.prefix sep (String c s)) eqn:E.
    + intros [= <-]. exists EmptyString.
      apply JsStringFacts.prefix_split in E. exact E.
    + intros Ht. destruct (IH Ht) as (b & ->). now exists (String c b).
Qed.

Lemma text_before_part stop s : exists a, s = text_before stop s +:+ a.
Proof.
  induction s as [|c s (a & IH)]; simpl.
  - now exists EmptyString.
  - destruct (stop c).
    + now exists (String c s).
    + exists a. simpl. now rewrite <- IH.
Qed.

Lemma ends_with_part suffix s :
  ends_with suffix s = true -> exists b, s = b +:+ suffix.
Proof.
  unfold ends_with. rewrite andb_true_iff, JsStringFacts.eqb_eq.
  intros (_ & E).
  exists (JsString.take (String.length s - String.length suffix) s).
  pose proof (JsStringFacts.take_drop
                (String.length s - String.length suffix) s) as Hd.
  rewrite E in Hd. now symmetry.
Qed.

(** The host of a URL is a part of the URL. *)
Lemma url_host_part pat url :
  JsString.occurs_in pat (url_host url) -> JsString.occurs_in pat url.
Proof.
  unfold url_host. destruct (text_after "://" url) as [rest|] eqn:E.
  - cbv zeta. intros Hp.
    destruct (text_before_part is_colon
                (default (text_before ends_authority rest)
                   (text_after "@" (text_before ends_authority rest))))
      as (a1 & E1).
    assert (H1 : JsString.occurs_in pat
                   (default (text_before ends_authority rest)
                      (text_after "@" (text_before ends_authority rest)))).
    { rewrite E1. apply (occurs_in_part pat "" _ a1), Hp. }
    assert (H2 : JsString.occurs_in pat (text_before ends_authority rest)).
    { destruct (text_after "@" (text_before ends_authority rest)) as [hp|] eqn:E2.
      - apply text_after_part in E2. destruct E2 as (b & E2). rewrite E2.
        simpl in H1.
        replace (b +:+ "@" +:+ hp) with ((b +:+ "@") +:+ hp +:+ "").
        + apply occurs_in_part, H1.
        + now rewrite app_string_assoc, app_string_nil_r.
      - exact H1. }
    destruct (text_before_part ends_authority rest) as (a3 & E3).
    apply text_after_part in E. destruct E as (b & ->).
    rewrite E3.
    replace (b +:+ "://" +:+ text_before ends_authority rest +:+ a3)
      with ((b +:+ "://") +:+ text_before ends_authority rest +:+ a3)
      by (rewrite app_string_assoc; reflexivity).
    apply occurs_in_part, H2.
  - intros (b & a & Hb). destruct b; [destruct pat|]; try discriminate.
    now exists "", url.
Qed.

(** A referrer from the allow-listed domain passes the code's test. *)
Lemma allow_listed_domain_matches r :
  from_allow_listed_domain r = true -> matches_referrer_pattern r.
Proof.
  unfold from_allow_listed_domain, matches_referrer_pattern.
  rewrite orb_true_iff, JsStringFacts.eqb_eq. intros [E|E].
  - apply url_host_part. rewrite E. now exists "", "".
  - apply url_host_part. apply ends_with_part in E. destruct E as (b & ->).
    exists (b +:+ "."), "".
    now rewrite app_string_assoc, app_string_nil_r.
Qed.

End ReferrerFacts.

(** ** The tracking module *)

Module TrackFacts.
Import Track.

(** *** Property bags *)

Lemma obj_get_set k k' v o :
  obj_get k' (obj_set k v o) =
  if JsString.eqb k' k then Some v else obj_get k' o.
Proof.
  induction o as [|[k0 v0] o IH]; simpl.
  - reflexivity.
  - destruct (JsString.eqb k k0) eqn:E; simpl.
    + apply JsStringFacts.eqb_eq in E. subst k0.
      destruct (JsString.eqb k' k); reflexivity.
    + rewrite IH. destruct (JsString.eqb k' k0) eqn:E0; [|reflexivity].
      apply JsStringFacts.eqb_eq in E0. subst k0.
      destruct (JsString.eqb k' k) eqn:E1; [|reflexivity].
      apply JsStringFacts.eqb_eq in E1. subst k'.
      unfold JsString.eqb in E. rewrite bool_decide_eq_false in E. congruence.
Qed.

Lemma obj_get_assign k fields o :
  obj_get k (fold_left (fun o kv => obj_set kv.1 kv.2 o) fields o) =
  match last_assigned k fields with
  | Some v => Some v
  | None => obj_get k o
  end.
Proof.
  revert o. induction fields as [|[k0 v0] fields IH]; intros o; simpl.
  - reflexivity.
  - rewrite IH. destruct (last_assigned k fields); [reflexivity|].
    rewrite obj_get_set. destruct (JsString.eqb k k0); reflexivity.
Qed.

Lemma last_assigned_app k l1 l2 v :
  last_assigned k l2 = Some v -> last_assigned k (l1 ++ l2) = Some v.
Proof.
  intros H. induction l1 as [|[k0 v0] l1 IH]; simpl; [assumption|].
  now rewrite IH.
Qed.

(** A field the literal writes after the spread wins over the caller's. *)
Lemma obj_literal_field k v spread fields :
  last_assigned k fields = Some v ->
  obj_get k (obj_literal spread fields) = Some v.
Proof.
  intros H. unfold obj_literal. rewrite obj_get_assign.
  now rewrite (last_assigned_app _ _ _ _ H).
Qed.

Section WithLibs.
Context `{Libs}.

Lemma trackProps_field env win props k v :
  last_assigned k (derived_fields env win) = Some v ->
  obj_get k (trackProps env win props) = Some v.
Proof. apply obj_literal_field. Qed.

(** *** The identifier manager *)

Lemma getOrGenerateDeviceId_run w :
  getOrGenerateDeviceId w =
  let t := default (uuidv4 (entropy w)) (usable w DEVICE_ID_COOKIE) in
  (t, {| cookies := <[DEVICE_ID_COOKIE :=
                        {| cookie_value := t;
                           cookie_attributes := device_attributes |}]> (cookies w);
         pageIds := pageIds w; jitsu := jitsu w;
         entropy := match usable w DEVICE_ID_COOKIE with
                    | Some _ => entropy w
                    | None => S (entropy w)
                    end;
         handles := handles w;
         log := log w ++ [CookieGet DEVICE_ID_COOKIE;
                          CookieSet DEVICE_ID_COOKIE t device_attributes] |}).
Proof.
  unfold getOrGenerateDeviceId, usable, bind, Cookies_get, Cookies_set,
    or_else, uuid, ret, emit. simpl.
  destruct (cookies w !! DEVICE_ID_COOKIE) as [[v a]|]; simpl.
  - destruct (JsString.truthy v); simpl; rewrite <- app_assoc; reflexivity.
  - rewrite <- app_assoc. reflexivity.
Qed.

Lemma getOrGenerateSessionId_run win w :
  getOrGenerateSessionId win w =
  let t := default (uuidv4 (entropy w)) (usable w SESSION_ID_COOKIE) in
  (t, {| cookies := <[SESSION_ID_COOKIE :=
                        {| cookie_value := t;
                           cookie_attributes := session_attributes win |}]>
                    (cookies w);
         pageIds := pageIds w; jitsu := jitsu w;
         entropy := match usable w SESSION_ID_COOKIE with
                    | Some _ => entropy w
                    | None => S (entropy w)
                    end;
         handles := handles w;
         log := log w ++ [CookieGet SESSION_ID_COOKIE;
                          CookieSet SESSION_ID_COOKIE t
                            (session_attributes win)] |}).
Proof.
  unfold getOrGenerateSessionId, usable, bind, Cookies_get, Cookies_set,
    or_else, uuid, ret, emit, session_attributes. simpl.
  destruct (cookies w !! SESSION_ID_COOKIE) as [[v a]|]; simpl.
  - destruct (JsString.truthy v); simpl; rewrite <- app_assoc; reflexivity.
  - rewrite <- app_assoc. reflexivity.
Qed.

Lemma getOrGeneratePageId_null win w :
  history_state win = None ->
  getOrGeneratePageId win w = (Abrupt TypeError, w).
Proof. intros E. unfold getOrGeneratePageId. now rewrite E. Qed.

Lemma getOrGeneratePageId_run win st w :
  history_state win = Some st ->
  getOrGeneratePageId win w =
  let k := property_name (state_key st) in
  (Normal (get_property
             (if has_property (pageIds w) k then pageIds w
              else <[k := uuidv4 (entropy w)]> (pageIds w)) k),
   {| cookies := cookies w;
      pageIds := if has_property (pageIds w) k then pageIds w
                 else <[k := uuidv4 (entropy w)]> (pageIds w);
      jitsu := jitsu w;
      entropy := if has_property (pageIds w) k then entropy w
                 else S (entropy w);
      handles := handles w; log := log w |}).
Proof.
  intros E. unfold getOrGeneratePageId. rewrite E.
  unfold bind, get_pageIds, set_pageId, uuid, ret. cbv zeta. simpl.
  destruct (has_property (pageIds w) (property_name (state_key st))); simpl.
  - destruct w; reflexivity.
  - reflexivity.
Qed.

(** *** The dispatcher *)

Lemma dataWareHouseTrack_run env win event w :
  dataWareHouseTrack env win event w =
  (tt, {| cookies := cookies w; pageIds := pageIds w; jitsu := jitsu w;
          entropy := entropy w; handles := handles w;
          log := log w ++ warehouse_effects env win event |}).
Proof.
  unfold dataWareHouseTrack, warehouse_effects, bind, fetch, emit, ret.
  destruct (JsString.truthy (dataWarehouseUrl env)); simpl.
  - destruct (fetch_throws win), (inTelemetryDebugMode env); simpl;
      rewrite <- ?app_assoc; reflexivity.
  - rewrite app_nil_r. destruct w; reflexivity.
Qed.

(** What a call in the browser does to the trace and to the client
    variable, and how it completes. *)
Lemma track_run env win event props w :
  let r := track env (Some win) event props w in
  log r.2 = log w ++ track_effects env win event props w
  /\ r.1 = match history_state win with
           | None => Abrupt TypeError
           | Some _ => Normal tt
           end
  /\ jitsu r.2 = match history_state win with
                 | None => jitsu w
                 | Some _ => if isTelemetryEnabled env
                             then Some (client_for env w) else jitsu w
                 end.
Proof.
  unfold track, bind, track_effects, identifier_effects, device_effects,
    posted_event, page_value, debug_effects, client_effects, client_for.
  destruct (history_state win) as [st|] eqn:E.
  - rewrite !getOrGenerateDeviceId_run. cbv beta iota zeta. cbn [fst snd].
    rewrite !(getOrGeneratePageId_run win st) by exact E.
    cbv beta iota zeta. cbn [fst snd].
    rewrite !getOrGenerateSessionId_run. cbv beta iota zeta. cbn [fst snd].
    rewrite dataWareHouseTrack_run. cbv beta iota zeta.
    cbn [log jitsu handles cookies pageIds entropy fst snd].
    destruct (inTelemetryDebugMode env), (isTelemetryEnabled env), (jitsu w);
      unfold emit, ret, get_jitsu, jitsuClient, emit;
      cbn [log jitsu handles cookies pageIds entropy fst snd negb];
      rewrite <- ?app_assoc; cbn [app]; rewrite ?app_nil_r;
      repeat split; reflexivity.
  - rewrite !getOrGenerateDeviceId_run. cbv beta iota zeta. cbn [fst snd].
    rewrite getOrGeneratePageId_null by exact E.
    unfold ret. cbn [log jitsu fst snd]. repeat split; reflexivity.
Qed.

Lemma effects_of_track env win event props w :
  effects_of (track env (Some win) event props) w
  = track_effects env win event props w.
Proof.
  unfold effects_of.
  destruct (track_run env win event props w) as (Hlog & _ & _).
  cbv zeta in Hlog. rewrite Hlog. apply drop_app_length.
Qed.

Lemma effects_of_nothing {A} (a : A) w : effects_of (Track.ret a) w = [].
Proof. unfold effects_of, Track.ret. simpl. apply drop_all. Qed.

(** The trace of a call whose history entry has a state. *)
Lemma track_effects_state env win st event props w :
  history_state win = Some st ->
  track_effects env win event props w
  = identifier_effects win w
    ++ warehouse_effects env win (posted_event env win event props w)
    ++ debug_effects env win event props
    ++ client_effects env win event props w.
Proof. intros E. unfold track_effects. now rewrite E. Qed.

Lemma track_effects_null env win event props w :
  history_state win = None ->
  track_effects env win event props w = device_effects w.
Proof. intros E. unfold track_effects. now rewrite E. Qed.

(** Every dispatch of a call carries the bag [trackProps] builds. *)
Lemma track_carries env win event props w :
  Forall (fun e => is_dispatch e = true -> carries e (trackProps env win props))
         (effects_of (track env (Some win) event props) w).
Proof.
  rewrite effects_of_track.
  destruct (history_state win) as [st|] eqn:E.
  - rewrite (track_effects_state env win st) by exact E.
    unfold identifier_effects, device_effects, warehouse_effects,
      debug_effects, client_effects.
    repeat (apply Forall_app; split).
    + repeat constructor; discriminate.
    + repeat constructor; discriminate.
    + destruct (JsString.truthy (dataWarehouseUrl env)); [|constructor].
      constructor.
      * intros _. now constructor.
      * destruct (fetch_throws win && inTelemetryDebugMode env);
          repeat constructor; discriminate.
    + destruct (inTelemetryDebugMode env); repeat constructor; discriminate.
    + destruct (isTelemetryEnabled env); [|constructor].
      destruct (jitsu w); repeat constructor; discriminate.
  - rewrite track_effects_null by exact E.
    unfold device_effects. repeat constructor; discriminate.
Qed.

(** A call whose history entry has a state hands the event and the bag to
    each collector that is switched on. *)
Lemma track_delivers env win st event props w :
  history_state win = Some st ->
  delivers env event (trackProps env win props)
    (effects_of (track env (Some win) event props) w).
Proof.
  intros E. split; [|split; [|apply track_carries]].
  - intros Hu. rewrite effects_of_track, (track_effects_state env win st) by exact E.
    eexists _, (posted_event env win event props w).
    split; [|split; [reflexivity | split; reflexivity]].
    rewrite !elem_of_app. right. left.
    unfold warehouse_effects. rewrite Hu. apply list_elem_of_here.
  - intros Ht. rewrite effects_of_track, (track_effects_state env win st) by exact E.
    exists (client_for env w).
    rewrite !elem_of_app. right. right. right.
    unfold client_effects. rewrite Ht. rewrite elem_of_app. right.
    apply list_elem_of_here.
Qed.

(** *** The properties of [track] *)

(** C8. Outside a browser execution context ([window] undefined) [track]
    returns without any side effect, whatever the event name and the
    property bag: the world (cookie jar, page-id mapping, client variable,
    random stream) is the same afterwards and the trace gains no action, so
    no cookie is read or written, no request is made and no client is
    created; the same holds for any number of such calls. *)
Theorem track_outside_browser env event props w :
  track env None event props w = (Normal tt, w)
  /\ effects_of (track env None event props) w = []
  /\ cookies (track env None event props w).2 = cookies w
  /\ pageIds (track env None event props w).2 = pageIds w
  /\ jitsu (track env None event props w).2 = jitsu w
  /\ (forall events, run (server_side env events) w = w).
Proof.
  repeat split.
  - apply (effects_of_nothing (Normal tt)).
  - intros events. induction events as [|ep events IH]; simpl; auto.
Qed.

Lemma referer_cases win :
  (forall r, referrer win = Some r -> matches_referrer_pattern r ->
             referer win = r)
  /\ (forall r, referrer win = Some r -> ~ matches_referrer_pattern r ->
       referer win = EmptyString)
  /\ (referrer win = None -> referer win = EmptyString).
Proof.
  unfold referer, matches_referrer_pattern. repeat split.
  - intros r -> Hm. apply JsStringFacts.includes_spec in Hm. now rewrite Hm.
  - intros r -> Hm.
    destruct (JsString.includes "weblens.ai" r) eqn:E; [|reflexivity].
    apply JsStringFacts.includes_spec in E. contradiction.
  - now intros ->.
Qed.

Lemma trackProps_referer env win props :
  obj_get "referer" (trackProps env win props) = Some (VStr (referer win)).
Proof. apply trackProps_field. reflexivity. Qed.

(** C10 (amended). The property bag a call in the browser builds, which is
    the bag every dispatch of the call carries and the one delivered to each
    collector that is switched on, has [page_title], [source_ip] and
    [doc_search] equal to the empty string, [page_url] and [doc_path] equal
    to the location's path name and [url] made of the protocol, the masked
    host and the path name, whatever the caller supplied: these fields
    carry no page title, client address or query string.  The [referer]
    field is not covered: a referrer that matches the pattern is sent as it
    is. *)
Theorem track_blanks_private_fields env win event props w :
  let p := trackProps env win props in
  obj_get "page_title" p = Some (VStr "")
  /\ obj_get "source_ip" p = Some (VStr "")
  /\ obj_get "doc_search" p = Some (VStr "")
  /\ obj_get "page_url" p = Some (VStr (pathname (location win)))
  /\ obj_get "doc_path" p = Some (VStr (pathname (location win)))
  /\ obj_get "url" p
     = Some (VStr (protocol (location win) +:+ "//" +:+ host env win
                   +:+ pathname (location win)))
  /\ (forall r, referrer win = Some r -> matches_referrer_pattern r ->
                obj_get "referer" p = Some (VStr r))
  /\ (forall st, history_state win = Some st ->
                 delivers env event p
                   (effects_of (track env (Some win) event props) w))
  /\ Forall (fun e => is_dispatch e = true -> carries e p)
       (effects_of (track env (Some win) event props) w).
Proof.
  cbv zeta.
  do 6 (split; [apply trackProps_field; reflexivity|]).
  split.
  { intros r Hr Hm. rewrite trackProps_referer.
    now rewrite (proj1 (referer_cases win) r Hr Hm). }
  split; [intros st E; now apply (track_delivers env win st)|].
  apply track_carries.
Qed.

(** C7 (amended). The [referer] of the property bag a call in the browser
    builds (the bag every dispatch carries, delivered to each collector that
    is switched on) is the document's referrer whenever the text
    "weblens.ai" occurs somewhere in the referrer, be it in its host, its
    path or its query, hence in particular whenever the referrer comes from
    the domain weblens.ai or one of its subdomains; it is the empty string
    in every other case: the referrer does not contain that text, or there
    is no referrer. *)
Theorem track_referer env win event props w :
  let p := trackProps env win props in
  (forall r, referrer win = Some r -> matches_referrer_pattern r ->
             obj_get "referer" p = Some (VStr r))
  /\ (forall r, referrer win = Some r -> from_allow_listed_domain r = true ->
                obj_get "referer" p = Some (VStr r))
  /\ (forall r, referrer win = Some r -> ~ matches_referrer_pattern r ->
                obj_get "referer" p = Some (VStr ""))
  /\ (referrer win = None -> obj_get "referer" p = Some (VStr ""))
  /\ (forall st, history_state win = Some st ->
                 delivers env event p
                   (effects_of (track env (Some win) event props) w))
  /\ Forall (fun e => is_dispatch e = true -> carries e p)
       (effects_of (track env (Some win) event props) w).
Proof.
  cbv zeta. rewrite trackProps_referer.
  destruct (referer_cases win) as (H1 & H2 & H3).
  split; [intros r Hr Hm; now rewrite (H1 r Hr Hm)|].
  split.
  { intros r Hr Hd.
    now rewrite (H1 r Hr (ReferrerFacts.allow_listed_domain_matches r Hd)). }
  split; [intros r Hr Hm; now rewrite (H2 r Hr Hm)|].
  split; [intros Hr; now rewrite (H3 Hr)|].
  split; [intros st E; now apply (track_delivers env win st)|].
  apply track_carries.
Qed.

(** The [url] field of the posted event is the masked URL of the bag. *)
Lemma posted_event_url env win event props w :
  url (posted_event env win event props w)
  = protocol (location win) +:+ "//" +:+ host env win
    +:+ pathname (location win).
Proof.
  unfold posted_event. cbn [url].
  rewrite (trackProps_field env win props "url"
             (VStr (protocol (location win) +:+ "//" +:+ host env win
                    +:+ pathname (location win)))); reflexivity.
Qed.

Lemma isLocalhost_spec win :
  isLocalhost win = true <-> matches_localhost (hostname (location win)).
Proof.
  unfold isLocalhost, matches_localhost.
  rewrite orb_true_iff, !JsStringFacts.includes_spec. reflexivity.
Qed.

Lemma host_cases env win :
  (host env win = "localhost" \/ host env win = "cloud"
   \/ host env win = "self-hosted")
  /\ (matches_localhost (hostname (location win)) -> host env win = "localhost")
  /\ (~ matches_localhost (hostname (location win)) ->
       host env win = if isCloud env then "cloud" else "self-hosted").
Proof.
  unfold host. destruct (isLocalhost win) eqn:E.
  - repeat split; auto. intros Hn. apply isLocalhost_spec in E. contradiction.
  - repeat split.
    + destruct (isCloud env); auto.
    + intros Hm. apply isLocalhost_spec in Hm. congruence.
Qed.

(** The mask depends on the host name only through the localhost test. *)
Lemma host_independent env win1 win2 :
  (matches_localhost (hostname (location win1))
   <-> matches_localhost (hostname (location win2))) ->
  host env win1 = host env win2.
Proof.
  rewrite <- !isLocalhost_spec. intros Hiff. unfold host.
  destruct (isLocalhost win1), (isLocalhost win2); try reflexivity.
  - destruct Hiff as [Hiff _]. specialize (Hiff eq_refl). discriminate.
  - destruct Hiff as [_ Hiff]. specialize (Hiff eq_refl). discriminate.
Qed.

(** C6. In the property bag a call in the browser builds (the bag every
    dispatch of the call carries, delivered to each collector that is
    switched on), [doc_host] is one of "localhost", "cloud" and
    "self-hosted" and [url] is the protocol, "//", that same string and the
    path name, and so is the [url] field of the event posted to the
    warehouse: "localhost" whenever the page's host name matches localhost
    or 127.0.0.1 (whatever the deployment mode), otherwise "cloud" in cloud
    mode and "self-hosted" if not.  The real host name does not come into
    it: two pages with the same protocol and path whose host names agree on
    the localhost test get the same [doc_host] and the same [url]. *)
Theorem track_masks_host env win event props w :
  let p := trackProps env win props in
  (exists m,
      obj_get "doc_host" p = Some (VStr m)
      /\ obj_get "url" p
         = Some (VStr (protocol (location win) +:+ "//" +:+ m
                       +:+ pathname (location win)))
      /\ url (posted_event env win event props w)
         = protocol (location win) +:+ "//" +:+ m +:+ pathname (location win)
      /\ (m = "localhost" \/ m = "cloud" \/ m = "self-hosted")
      /\ (matches_localhost (hostname (location win)) -> m = "localhost")
      /\ (~ matches_localhost (hostname (location win)) ->
          m = if isCloud env then "cloud" else "self-hosted"))
  /\ (forall win2 props2,
        protocol (location win2) = protocol (location win) ->
        pathname (location win2) = pathname (location win) ->
        (matches_localhost (hostname (location win2))
         <-> matches_localhost (hostname (location win))) ->
        obj_get "doc_host" (trackProps env win2 props2) = obj_get "doc_host" p
        /\ obj_get "url" (trackProps env win2 props2) = obj_get "url" p)
  /\ (forall st, history_state win = Some st ->
                 delivers env event p
                   (effects_of (track env (Some win) event props) w))
  /\ Forall (fun e => is_dispatch e = true -> carries e p)
       (effects_of (track env (Some win) event props) w).
Proof.
  cbv zeta.
  assert (Hh : forall wn ps, obj_get "doc_host" (trackProps env wn ps)
                             = Some (VStr (host env wn)))
    by (intros; apply trackProps_field; reflexivity).
  assert (Hu : forall wn ps, obj_get "url" (trackProps env wn ps)
                 = Some (VStr (protocol (location wn) +:+ "//" +:+ host env wn
                               +:+ pathname (location wn))))
    by (intros; apply trackProps_field; reflexivity).
  split.
  { exists (host env win). destruct (host_cases env win) as (H1 & H2 & H3).
    repeat split; auto. apply posted_event_url. }
  split.
  { intros win2 props2 Hp Hn Hm. rewrite !Hh, !Hu, Hp, Hn.
    rewrite (host_independent env win2 win Hm). split; reflexivity. }
  split; [intros st E; now apply (track_delivers env win st)|].
  apply track_carries.
Qed.

(** *** The two collectors *)


Ltac open_trace :=
  unfold identifier_effects, device_effects, warehouse_effects, debug_effects,
    client_effects.




Lemma track_posts env win event props w :
  Forall (fun e => is_fetch e = true ->
            posts env e (posted_event env win event props w))
         (track_effects env win event props w).
Proof.
  destruct (history_state win) as [st|] eqn:E.
  - rewrite (track_effects_state env win st) by exact E. open_trace.
    repeat (apply Forall_app; split).
    + repeat constructor; discriminate.
    + repeat constructor; discriminate.
    + destruct (JsString.truthy (dataWarehouseUrl env)); [|constructor].
      constructor.
      * intros _. reflexivity.
      * destruct (fetch_throws win && inTelemetryDebugMode env);
          repeat constructor; discriminate.
    + destruct (inTelemetryDebugMode env); repeat constructor; discriminate.
    + destruct (isTelemetryEnabled env); [|constructor].
      destruct (jitsu w); repeat constructor; discriminate.
  - rewrite track_effects_null by exact E.
    unfold device_effects. repeat constructor; discriminate.
Qed.





(** *** The device identifier *)

Lemma getOrGenerateDeviceId_again w t a :
  cookies w !! DEVICE_ID_COOKIE
    = Some {| cookie_value := t; cookie_attributes := a |} ->
  JsString.truthy t = true ->
  (getOrGenerateDeviceId w).1 = t
  /\ entropy (getOrGenerateDeviceId w).2 = entropy w
  /\ cookies (getOrGenerateDeviceId w).2 !! DEVICE_ID_COOKIE
     = Some {| cookie_value := t; cookie_attributes := device_attributes |}.
Proof.
  intros Hc Ht. rewrite getOrGenerateDeviceId_run. cbv zeta.
  unfold usable. rewrite Hc. simpl. rewrite Ht. simpl.
  repeat split. apply lookup_insert_eq.
Qed.

Lemma deviceIds_stable n : forall w t,
  cookies w !! DEVICE_ID_COOKIE
    = Some {| cookie_value := t; cookie_attributes := device_attributes |} ->
  JsString.truthy t = true ->
  Forall (eq t) (deviceIds n w).1
  /\ entropy (deviceIds n w).2 = entropy w
  /\ cookies (deviceIds n w).2 !! DEVICE_ID_COOKIE
     = Some {| cookie_value := t; cookie_attributes := device_attributes |}.
Proof.
  induction n as [|n IH]; intros w t Hc Ht; simpl.
  - repeat split; auto.
  - destruct (getOrGenerateDeviceId_again w t _ Hc Ht) as (H1 & H2 & H3).
    destruct (getOrGenerateDeviceId w) as [t1 w1]. simpl in H1, H2, H3.
    subst t1.
    destruct (IH w1 t H3 Ht) as (I1 & I2 & I3).
    destruct (deviceIds n w1) as [ts w2]. simpl in *.
    repeat split; auto. congruence.
Qed.

(** C9. When the device-id cookie is absent, the first call of
    [getOrGenerateDeviceId] draws a token from the random generator and
    stores it in the cookie with a 365-day expiry and the strict same-site
    policy; every call of any later sequence of calls returns that same
    token and draws nothing, and so does a call made from any world whose
    jar still holds the cookie.  (The generator's token is a UUID, hence not
    the empty string.) *)
Theorem device_id_persists w :
  cookies w !! DEVICE_ID_COOKIE = None ->
  JsString.truthy (uuidv4 (entropy w)) = true ->
  let first := getOrGenerateDeviceId w in
  let stored :=
    {| cookie_value := first.1;
       cookie_attributes := {| expires := ExpiresDays 365;
                               sameSite := Strict |} |} in
  first.1 = uuidv4 (entropy w)
  /\ entropy first.2 = S (entropy w)
  /\ cookies first.2 !! DEVICE_ID_COOKIE = Some stored
  /\ (forall n,
        Forall (eq first.1) (deviceIds n first.2).1
        /\ entropy (deviceIds n first.2).2 = entropy first.2
        /\ cookies (deviceIds n first.2).2 !! DEVICE_ID_COOKIE = Some stored)
  /\ (forall w2,
        cookies w2 !! DEVICE_ID_COOKIE = Some stored ->
        (getOrGenerateDeviceId w2).1 = first.1
        /\ entropy (getOrGenerateDeviceId w2).2 = entropy w2).
Proof.
  intros Habsent Htoken. cbv zeta.
  rewrite (getOrGenerateDeviceId_run w). cbv zeta.
  unfold usable. rewrite Habsent. cbn [default fst snd entropy cookies].
  assert (Hstored :
    <[DEVICE_ID_COOKIE := {| cookie_value := uuidv4 (entropy w);
                             cookie_attributes := device_attributes |}]>
      (cookies w) !! DEVICE_ID_COOKIE
    = Some {| cookie_value := uuidv4 (entropy w);
              cookie_attributes := device_attributes |})
    by apply lookup_insert_eq.
  split; [reflexivity|]. split; [reflexivity|]. split; [exact Hstored|].
  split.
  - intros n. apply deviceIds_stable; [exact Hstored | exact Htoken].
  - intros w2 H2.
    destruct (getOrGenerateDeviceId_again w2 _ _ H2 Htoken) as (A & B & _).
    split; assumption.
Qed.

(** *** The identifiers in what is dispatched *)

(** What the property bag says about the user and the organisation: the
    hashes in every deployment, the identifiers themselves in cloud mode
    only. *)
Lemma trackProps_identifiers env win props :
  let p := trackProps env win props in
  obj_get "user_id_hash" p
    = Some (VStr (match current_id env with
                  | Some i => if JsString.truthy i then md5 i else ""
                  | None => ""
                  end))
  /\ obj_get "org_hash" p
      = Some (VStr (match current_org env with
                    | Some o => if JsString.truthy o then md5 o else ""
                    | None => ""
                    end))
  /\ obj_get "user_id" p
      = Some (if isCloud env then opt_val (current_id env) else VStr "")
  /\ obj_get "org" p
      = Some (if isCloud env then opt_val (current_org env) else VStr "").
Proof. cbv zeta. repeat split; apply trackProps_field; reflexivity. Qed.

(** The event posted to the warehouse has the user's identifier in its
    [user_id] field, in cloud mode or not. *)
Lemma warehouse_post_user_id env win event props w :
  Forall (fun e => is_fetch e = true ->
            exists ev, posts env e ev
              /\ user_id ev = current_id env
              /\ obj_get "user_id" (event_object ev)
                  = Some (opt_val (current_id env)))
         (effects_of (track env (Some win) event props) w).
Proof.
  rewrite effects_of_track.
  eapply Forall_impl; [apply track_posts|].
  intros e He Hf. exists (posted_event env win event props w).
  split; [auto|]. split; reflexivity.
Qed.

(** *** Snapshot dimensions *)

(** C4. [parseSnapshotDimension] is a function of its argument (and of
    [md5]): on the empty string it returns type "none" with an empty id; on
    "pre:" followed by [x], type "predefined" with id [x]; on "exp:" followed
    by [x], type "experiment" with id [md5 x]; on every other string [d],
    type "user" with id [md5 d]. *)
Theorem parseSnapshotDimension_cases :
  parseSnapshotDimension "" = {| type := "none"; dim_id := "" |}
  /\ (forall x, parseSnapshotDimension ("pre:" +:+ x)
                = {| type := "predefined"; dim_id := x |})
  /\ (forall x, parseSnapshotDimension ("exp:" +:+ x)
                = {| type := "experiment"; dim_id := md5 x |})
  /\ (forall d, d <> EmptyString ->
                String.prefix "pre:" d = false ->
                String.prefix "exp:" d = false ->
                parseSnapshotDimension d
                = {| type := "user"; dim_id := md5 d |}).
Proof.
  split; [reflexivity|].
  split; [|split].
  - intros x. unfold parseSnapshotDimension.
    rewrite JsStringFacts.substring_head, JsStringFacts.substring_tail.
    reflexivity.
  - intros x. unfold parseSnapshotDimension.
    rewrite JsStringFacts.substring_head, JsStringFacts.substring_tail.
    reflexivity.
  - intros d Hd Hpre Hexp. unfold parseSnapshotDimension.
    apply JsStringFacts.truthy_true in Hd. rewrite Hd. simpl.
    rewrite JsStringFacts.substring_head.
    assert (H1 : JsString.eqb (JsString.take 4 d) "pre:" = false).
    { unfold JsString.eqb. apply bool_decide_eq_false. intros E.
      apply (JsStringFacts.prefix_take "pre:" d) in E. congruence. }
    assert (H2 : JsString.eqb (JsString.take 4 d) "exp:" = false).
    { unfold JsString.eqb. apply bool_decide_eq_false. intros E.
      apply (JsStringFacts.prefix_take "exp:" d) in E. congruence. }
    rewrite H1, H2. reflexivity.
Qed.

End WithLibs.

(** *** The module on concrete inputs *)

Lemma parseSnapshotDimension_cases_witness :
  parseSnapshotDimension (H := TrackSamples.libs) "country"
  = {| type := "user"; dim_id := md5 (Libs := TrackSamples.libs) "country" |}.
Proof.
  apply (proj2 (proj2 (proj2
           (parseSnapshotDimension_cases (H := TrackSamples.libs)))));
    [discriminate | reflexivity | reflexivity].
Defined.

Lemma device_id_persists_witness :
  Forall (eq (uuidv4 (Libs := TrackSamples.libs) 0))
    (deviceIds (H := TrackSamples.libs) 3
       (getOrGenerateDeviceId (H := TrackSamples.libs) (page_load ∅ 0)).2).1.
Proof.
  refine (proj1 (proj1 (proj2 (proj2 (proj2
            (device_id_persists (H := TrackSamples.libs) (page_load ∅ 0)
               _ _)))) 3)).
  - reflexivity.
  - reflexivity.
Defined.



(** C7, as stated, fails on a referrer from another domain that mentions
    the allow-listed name: the host of
    "https://evil.example/?from=weblens.ai" is "evil.example", which is
    neither weblens.ai nor a subdomain of it, and yet the property bag has
    the whole referrer as its [referer], in the event handed to the
    analytics client and in the body posted to the warehouse. *)
Lemma foreign_referrer_is_sent :
  referrer TrackSamples.page_from_elsewhere
  = Some TrackSamples.foreign_referrer
  /\ url_host TrackSamples.foreign_referrer = "evil.example"
  /\ from_allow_listed_domain TrackSamples.foreign_referrer = false
  /\ obj_get "referer"
       (trackProps (H := TrackSamples.libs) TrackSamples.self_hosted
          TrackSamples.page_from_elsewhere [])
     = Some (VStr TrackSamples.foreign_referrer)
  /\ (exists c,
        effects_of (track (H := TrackSamples.libs) TrackSamples.self_hosted
                      (Some TrackSamples.page_from_elsewhere)
                      "View experiment" [])
                   (page_load ∅ 0) !! 6
        = Some (JitsuTrack c "View experiment"
                  (trackProps (H := TrackSamples.libs)
                     TrackSamples.self_hosted
                     TrackSamples.page_from_elsewhere [])))
  /\ (exists u body h,
        effects_of (track (H := TrackSamples.libs) TrackSamples.self_hosted
                      (Some TrackSamples.page_from_elsewhere)
                      "View experiment" [])
                   (page_load ∅ 0) !! 4
        = Some (Fetch u "POST" body h)
        /\ JsString.includes TrackSamples.foreign_referrer body = true).
Proof.
  do 4 (split; [vm_compute; reflexivity|]).
  split.
  - eexists. vm_compute. reflexivity.
  - eexists _, _, _. split; vm_compute; reflexivity.
Qed.

(** C10, as stated, fails on a page reached through a link with a query:
    the referrer "https://docs.weblens.ai/start?token=abc" comes from the
    allow-listed domain, so the property bag has it whole as its [referer],
    query included, while [doc_search] is blank; the bag goes to the
    analytics client and into the body posted to the warehouse. *)
Lemma referer_carries_query :
  referrer TrackSamples.page_from_docs
  = Some "https://docs.weblens.ai/start?token=abc"
  /\ from_allow_listed_domain "https://docs.weblens.ai/start?token=abc" = true
  /\ has_query "https://docs.weblens.ai/start?token=abc" = true
  /\ obj_get "doc_search"
       (trackProps (H := TrackSamples.libs) TrackSamples.self_hosted
          TrackSamples.page_from_docs [])
     = Some (VStr "")
  /\ obj_get "referer"
       (trackProps (H := TrackSamples.libs) TrackSamples.self_hosted
          TrackSamples.page_from_docs [])
     = Some (VStr "https://docs.weblens.ai/start?token=abc")
  /\ (exists c,
        effects_of (track (H := TrackSamples.libs) TrackSamples.self_hosted
                      (Some TrackSamples.page_from_docs)
                      "View experiment" [])
                   (page_load ∅ 0) !! 6
        = Some (JitsuTrack c "View experiment"
                  (trackProps (H := TrackSamples.libs)
                     TrackSamples.self_hosted
                     TrackSamples.page_from_docs [])))
  /\ (exists u body h,
        effects_of (track (H := TrackSamples.libs) TrackSamples.self_hosted
                      (Some TrackSamples.page_from_docs)
                      "View experiment" [])
                   (page_load ∅ 0) !! 4
        = Some (Fetch u "POST" body h)
        /\ JsString.includes "?token=abc" body = true).
Proof.
  do 5 (split; [vm_compute; reflexivity|]).
  split.
  - eexists. vm_compute. reflexivity.
  - eexists _, _, _. split; vm_compute; reflexivity.
Qed.

(** C1 at a failing input: a self-hosted deployment (not cloud) with the
    warehouse endpoint configured and a signed-in user "u_123".  The event
    posted to the warehouse has the unhashed identifier in its [user_id]
    field, and so has the serialised body, although the property bag it
    embeds blanks [user_id]. *)
Theorem self_hosted_post_has_user_id :
  let effs :=
    effects_of (track (H := TrackSamples.libs) TrackSamples.self_hosted
                  (Some TrackSamples.company_page) "View experiment" [])
               (page_load ∅ 0) in
  isCloud TrackSamples.self_hosted = false
  /\ current_id TrackSamples.self_hosted = Some "u_123"
  /\ obj_get "user_id"
       (trackProps (H := TrackSamples.libs) TrackSamples.self_hosted
          TrackSamples.company_page [])
     = Some (VStr "")
  /\ exists u h ev,
       effs !! 4
       = Some (Fetch u "POST"
                 (JSON_stringify (Libs := TrackSamples.libs) (event_object ev))
                 h)
       /\ user_id ev = Some "u_123"
       /\ JsString.includes
            (TrackSamples.quoted "user_id" +:+ ":"
             +:+ TrackSamples.quoted "u_123")
            (JSON_stringify (Libs := TrackSamples.libs) (event_object ev))
          = true.
Proof.
  cbv zeta. split; [reflexivity|]. split; [reflexivity|].
  split; [reflexivity|].
  exists "https://warehouse.example/track?client_key=sdk-1",
    [("Accept", "application/json"); ("Content-Type", "application/json")],
    (posted_event (H := TrackSamples.libs) TrackSamples.self_hosted
       TrackSamples.company_page "View experiment" [] (page_load ∅ 0)).
  split; [|split]; vm_compute; reflexivity.
Qed.

End TrackFacts.

(** ** The update-experiment handler *)

Module UpdateExperimentFacts.
Import UpdateExperiment.

#[local] Arguments String.append : simpl nomatch.

Section WithBackend.
Context `{Backend}.

Lemma existsb_query_id q l :
  existsb (fun e => JsString.eqb (query_id e) q) l
  = bool_decide (q ∈ map query_id l).
Proof.
  induction l as [|e l IH]; cbn [existsb map].
  - rewrite bool_decide_eq_false_2 by apply not_elem_of_nil. reflexivity.
  - rewrite IH. unfold JsString.eqb.
    destruct (decide (query_id e = q)) as [E|E].
    + rewrite (bool_decide_eq_true_2 _ E). cbn [orb]. symmetry.
      apply bool_decide_eq_true. rewrite <- E. apply list_elem_of_here.
    + rewrite (bool_decide_eq_false_2 _ E). cbn [orb].
      apply bool_decide_ext. rewrite elem_of_cons. intuition congruence.
Qed.

(** The handler's test on the data source is "the id is not one of the
    configured exposure queries". *)
Lemma js_not_exposure_some d q :
  js_not (exposure_some d (fun e => JsString.eqb (query_id e) q))
  = negb (bool_decide (q ∈ exposure_ids d)).
Proof.
  unfold exposure_some, exposure_ids, js_not.
  destruct (queries (settings d)) as [qs|]; cbn [mbind option_bind].
  - destruct (exposure qs) as [l|]; cbn [mbind option_bind].
    + now rewrite existsb_query_id.
    + rewrite bool_decide_eq_false_2 by apply not_elem_of_nil. reflexivity.
  - rewrite bool_decide_eq_false_2 by apply not_elem_of_nil. reflexivity.
Qed.

Ltac run_handler :=
  unfold serve, updateExperiment, UpdateExperiment.bind, call,
    do_updateExperimentToDb, throw, UpdateExperiment.ret;
  cbn [context calls fst snd].

Ltac crunch :=
  cbn [context calls fst snd negb andb orb app existsb is_update
       is_tracking_key_lookup].

(** Case analysis on the checks that precede the tracking-key check. *)
Ltac earlier_checks ctx req experiment :=
  destruct (body_project (body req)) as [p|];
    [ destruct (JsString.truthy p);
      [ crunch; destruct (ensureProjectsExist ctx [p]) | ] | ];
  crunch;
  (destruct (canUpdateExperiment ctx experiment (body req)); crunch);
  (destruct (getDataSourceById ctx (datasource experiment)) as [d|]; crunch).

(** Closes a goal "the handler threw, made no update, left the context as
    it was, and threw the expected error if the earlier checks passed" once
    the run has been reduced to its outcome. *)
Ltac settle :=
  solve [ split; [eexists; reflexivity |];
          split; [reflexivity |];
          split; [reflexivity |];
          first [ discriminate | intros; reflexivity ] ].

Lemma eqb_false a b : a <> b -> JsString.eqb a b = false.
Proof. intros Hne. unfold JsString.eqb. now apply bool_decide_eq_false. Qed.

Lemma eqb_refl a : JsString.eqb a a = true.
Proof. unfold JsString.eqb. now apply bool_decide_eq_true. Qed.

(** C2 (amended). Take a request on an existing experiment whose body has a
    tracking key that differs from the experiment's and already belongs to
    an experiment.  The handler throws, the update operation of the data
    layer is not invoked and the stored data is unchanged; when the request
    passes the checks made before (project, permission, data source,
    assignment query) the error thrown is the conflict error, whose message
    names the duplicate key.  When the body repeats the experiment's current
    tracking key, no look-up by tracking key is made. *)
Theorem tracking_key_conflict ctx req experiment :
  getExperimentById ctx (params_id req) = Some experiment ->
  (forall key other,
      body_trackingKey (body req) = Present key ->
      key <> trackingKey experiment ->
      getExperimentByTrackingKey ctx key = Some other ->
      (exists e, (serve ctx req).1 = inl e)
      /\ existsb is_update (calls (serve ctx req).2) = false
      /\ context (serve ctx req).2 = ctx
      /\ (reaches_tracking_key_check ctx experiment (body req) = true ->
          (serve ctx req).1
          = inl (Error ("Experiment with tracking key already exists: "
                        +:+ key))))
  /\ (body_trackingKey (body req) = Present (trackingKey experiment) ->
      existsb is_tracking_key_lookup (calls (serve ctx req).2) = false).
Proof.
  intros He. split.
  - intros key other Hk Hne Ho. apply eqb_false in Hne.
    unfold reaches_tracking_key_check, projects_ok, assignment_ok.
    run_handler. rewrite He, Hk.
    earlier_checks ctx req experiment; try settle.
    all: destruct (body_assignmentQueryId (body req)) as [| |q]; crunch;
      rewrite ?js_not_exposure_some;
      try destruct (JsString.eqb q (exposureQueryId experiment)); crunch;
      try destruct (bool_decide (q ∈ exposure_ids d)); crunch;
      rewrite ?Hne; crunch; rewrite ?Ho; crunch;
      settle.
  - intros Hk. run_handler. rewrite He, Hk, eqb_refl.
    earlier_checks ctx req experiment; try reflexivity.
    all: destruct (body_assignmentQueryId (body req)) as [| |q]; crunch;
      try destruct (negb (JsString.eqb q (exposureQueryId experiment))
                    && js_not (exposure_some d
                                 (fun e => JsString.eqb (query_id e) q)));
      crunch; try reflexivity.
    all: destruct (updateExperimentToDb ctx experiment
                     (updateExperimentApiPayloadToInterface (body req)
                        experiment)) as [[updated|] ctx'];
      crunch; reflexivity.
Qed.

(** C3 (amended). Take a request on an existing experiment whose body has a
    non-null assignment query id that differs from the experiment's current
    exposure query id and is none of the ids of the exposure queries
    configured on the experiment's data source.  The handler throws, the
    update operation of the data layer is not invoked and the stored data is
    unchanged; when the request passes the checks made before (project,
    permission) the error thrown is the validation error, whose message
    names the unrecognised id.  When the id is absent, null or equal to the
    current exposure query id, the check is skipped: that validation error
    is not thrown. *)
Theorem assignment_query_validation ctx req experiment :
  getExperimentById ctx (params_id req) = Some experiment ->
  (forall q d,
      body_assignmentQueryId (body req) = Present q ->
      q <> exposureQueryId experiment ->
      getDataSourceById ctx (datasource experiment) = Some d ->
      q ∉ exposure_ids d ->
      (exists e, (serve ctx req).1 = inl e)
      /\ existsb is_update (calls (serve ctx req).2) = false
      /\ context (serve ctx req).2 = ctx
      /\ (projects_ok ctx (body req) = true ->
          canUpdateExperiment ctx experiment (body req) = true ->
          (serve ctx req).1
          = inl (Error ("Unrecognized assignment query ID: " +:+ q))))
  /\ (body_assignmentQueryId (body req) = Absent
      \/ body_assignmentQueryId (body req) = Null
      \/ body_assignmentQueryId (body req)
         = Present (exposureQueryId experiment) ->
      forall q, (serve ctx req).1
                <> inl (Error ("Unrecognized assignment query ID: " +:+ q))).
Proof.
  intros He. split.
  - intros q d Hq Hne Hd Hnone. apply eqb_false in Hne.
    apply (bool_decide_eq_false_2 _) in Hnone.
    unfold projects_ok.
    run_handler. rewrite He, Hq.
    destruct (body_project (body req)) as [p|];
      [ destruct (JsString.truthy p);
        [ crunch; destruct (ensureProjectsExist ctx [p]) | ] | ];
      crunch;
      (destruct (canUpdateExperiment ctx experiment (body req)); crunch);
      rewrite ?Hd; crunch;
      rewrite ?js_not_exposure_some, ?Hne, ?Hnone; crunch;
      settle.
  - intros Hq q.
    destruct Hq as [Hq | [Hq | Hq]];
      run_handler; rewrite He, Hq, ?eqb_refl;
      earlier_checks ctx req experiment; try discriminate.
    all: destruct (body_trackingKey (body req)) as [| |k]; crunch;
      try (destruct (JsString.eqb k (trackingKey experiment)); crunch;
           try (destruct (getExperimentByTrackingKey ctx k); crunch)).
    all: try (intros E; simpl in E; discriminate).
    all: destruct (updateExperimentToDb ctx experiment
                     (updateExperimentApiPayloadToInterface (body req)
                        experiment)) as [[updated|] ctx'];
      crunch; intros E; simpl in E; discriminate.
Qed.

End WithBackend.

(** *** The handler on concrete requests *)

Import HandlerSamples.

Lemma tracking_key_conflict_witness :
  (serve (H := backend) store (request duplicate_key)).1
  = inl (Error "Experiment with tracking key already exists: pricing-test")
  /\ existsb is_tracking_key_lookup
       (calls (serve (H := backend) store (request same_key)).2) = false.
Proof.
  split.
  - refine (proj2 (proj2 (proj2
              (proj1 (tracking_key_conflict (H := backend) store
                        (request duplicate_key) checkout_test _)
                 "pricing-test" pricing_test _ _ _))) _);
      solve [reflexivity | discriminate].
  - refine (proj2 (tracking_key_conflict (H := backend) store
                     (request same_key) checkout_test _) _);
      reflexivity.
Defined.

Lemma assignment_query_validation_witness :
  (serve (H := backend) store (request unknown_query)).1
  = inl (Error "Unrecognized assignment query ID: device_id")
  /\ (serve (H := backend) store (request same_key)).1
     <> inl (Error "Unrecognized assignment query ID: device_id").
Proof.
  split.
  - refine (proj2 (proj2 (proj2
              (proj1 (assignment_query_validation (H := backend) store
                        (request unknown_query) checkout_test _)
                 "device_id" warehouse _ _ _ _))) _ _);
      try solve [reflexivity | discriminate].
    apply (bool_decide_unpack _). vm_compute. exact I.
  - refine (proj2 (assignment_query_validation (H := backend) store
                     (request same_key) checkout_test _) _ "device_id").
    + reflexivity.
    + left. reflexivity.
Defined.

(** C2, as stated, fails on a request that takes another experiment's
    tracking key and also names an unknown assignment query: the handler
    throws the validation error of the earlier check, not the conflict
    error. *)
Lemma duplicate_key_unknown_query_error :
  getExperimentById (Backend := backend) store
    (params_id (request duplicate_key_unknown_query)) = Some checkout_test
  /\ body_trackingKey (body (request duplicate_key_unknown_query))
     = Present "pricing-test"
  /\ "pricing-test" <> trackingKey checkout_test
  /\ getExperimentByTrackingKey (Backend := backend) store "pricing-test"
     = Some pricing_test
  /\ (serve (H := backend) store (request duplicate_key_unknown_query)).1
     = inl (Error "Unrecognized assignment query ID: device_id")
  /\ (serve (H := backend) store (request duplicate_key_unknown_query)).1
     <> inl (Error "Experiment with tracking key already exists: pricing-test").
Proof. repeat split; try reflexivity; discriminate. Qed.

(** C3, as stated, fails on a request that names an unknown assignment query
    and comes from a caller who may not update the experiment: the handler
    throws the permission error, not the validation error. *)
Lemma unknown_query_without_permission_error :
  getExperimentById (Backend := backend) read_only_store
    (params_id (request unknown_query)) = Some checkout_test
  /\ body_assignmentQueryId (body (request unknown_query))
     = Present "device_id"
  /\ "device_id" <> exposureQueryId checkout_test
  /\ getDataSourceById (Backend := backend) read_only_store
       (datasource checkout_test) = Some warehouse
  /\ exposure_ids warehouse = ["user_id"; "anonymous_id"]
  /\ (serve (H := backend) read_only_store (request unknown_query)).1
     = inl PermissionError
  /\ (serve (H := backend) read_only_store (request unknown_query)).1
     <> inl (Error "Unrecognized assignment query ID: device_id").
Proof. repeat split; try reflexivity; discriminate. Qed.

End UpdateExperimentFacts.

(** ** More on the tracking module: identifiers, failures, the trackers *)

Module TrackMoreFacts.
Import Track Trackers TrackFacts.

#[local] Arguments String.append : simpl nomatch.

Lemma device_session_distinct : DEVICE_ID_COOKIE <> SESSION_ID_COOKIE.
Proof. discriminate. Qed.

Lemma usable_Some w name t :
  usable w name = Some t <->
  exists a, cookies w !! name = Some {| cookie_value := t; cookie_attributes := a |}
            /\ JsString.truthy t = true.
Proof.
  unfold usable. split.
  - destruct (cookies w !! name) as [[v a]|]; [|discriminate]. simpl.
    destruct (JsString.truthy v) eqn:E; [|discriminate].
    intros [= <-]. eauto.
  - intros (a & -> & Ht). simpl. now rewrite Ht.
Qed.

Section WithLibs.
Context `{Libs}.


(** A call that throws leaves the page-id mapping and the session cookie as
    they were. *)
Lemma track_world_null env win event props w :
  history_state win = None ->
  (track env (Some win) event props w).2 = (getOrGenerateDeviceId w).2.
Proof.
  intros E. unfold track, Track.bind.
  destruct (getOrGenerateDeviceId w) as [d w1]. cbn [fst snd].
  rewrite getOrGeneratePageId_null by exact E. reflexivity.
Qed.

(** *** The page identifier *)

(** X1. [getOrGeneratePageId] caches one identifier per navigation entry.
    With no state in the current history entry it throws a TypeError and
    changes nothing.  Otherwise it touches neither the cookies nor the
    trace, keeps what the mapping held, and returns what the mapping has
    under the entry's key afterwards: when the key is a name every object
    inherits (such as "constructor") or is already in the mapping, nothing
    is drawn or stored; when it is neither, a fresh token is drawn, stored
    under the key and returned.  Once the mapping holds an identifier under
    the key, any later call for that key, from any world whose mapping has
    grown from that one, returns the same identifier and changes nothing. *)
Theorem page_id_is_cached win w :
  let r := getOrGeneratePageId win w in
  (history_state win = None -> r = (Abrupt TypeError, w))
  /\ (forall st, history_state win = Some st ->
        let k := property_name (state_key st) in
        cookies r.2 = cookies w
        /\ log r.2 = log w
        /\ pageIds w ⊆ pageIds r.2
        /\ r.1 = Normal (get_property (pageIds r.2) k)
        /\ (has_property (pageIds w) k = true -> r.2 = w)
        /\ (has_property (pageIds w) k = false ->
            r.1 = Normal (VStr (uuidv4 (entropy w)))
            /\ pageIds r.2 = <[k := uuidv4 (entropy w)]> (pageIds w)
            /\ entropy r.2 = S (entropy w))
        /\ (inherited k = false ->
            exists v, r.1 = Normal (VStr v) /\ pageIds r.2 !! k = Some v)
        /\ (forall v win2 st2 w2,
              pageIds r.2 !! k = Some v ->
              history_state win2 = Some st2 ->
              property_name (state_key st2) = k ->
              pageIds r.2 ⊆ pageIds w2 ->
              getOrGeneratePageId win2 w2 = (r.1, w2))).
Proof.
  cbv zeta. split; [apply getOrGeneratePageId_null|].
  intros st E. rewrite (getOrGeneratePageId_run win st w E). cbv zeta.
  cbn [fst snd pageIds cookies log entropy].
  set (k := property_name (state_key st)).
  split; [reflexivity|]. split; [reflexivity|].
  split.
  { destruct (has_property (pageIds w) k) eqn:Hp; [reflexivity|].
    apply insert_subseteq. unfold has_property in Hp.
    apply orb_false_iff in Hp as [Hp _].
    apply bool_decide_eq_false in Hp.
    now apply eq_None_not_Some. }
  split; [reflexivity|].
  split.
  { intros ->. destruct w; reflexivity. }
  split.
  { intros ->. unfold get_property. rewrite lookup_insert_eq.
    repeat split. }
  split.
  { intros Hi. unfold get_property, has_property. rewrite Hi, orb_false_r.
    destruct (pageIds w !! k) as [v|] eqn:Ek.
    - rewrite bool_decide_eq_true_2 by eauto. rewrite Ek. eauto.
    - rewrite bool_decide_eq_false_2 by (intros [? ?]; discriminate).
      rewrite lookup_insert_eq. eauto. }
  intros v win2 st2 w2 Hv E2 Hk Hsub.
  rewrite (getOrGeneratePageId_run win2 st2 w2 E2). cbv zeta.
  rewrite Hk. fold k.
  pose proof (lookup_weaken _ _ _ _ Hv Hsub) as Hv2.
  assert (Hp2 : has_property (pageIds w2) k = true).
  { unfold has_property. rewrite bool_decide_eq_true_2 by eauto. reflexivity. }
  rewrite Hp2. unfold get_property at 1 2. rewrite Hv2, Hv.
  destruct w2; reflexivity.
Qed.

(** *** The session identifier *)

(** X2. [getOrGenerateSessionId] keeps the session of a jar that holds one
    and renews its cookie: it reads the session cookie and writes it back,
    with the returned identifier, the strict same-site policy and the expiry
    built from the fields of the current time with thirty added to the
    minutes, and does nothing else; the identifier is the cookie's value
    when the jar holds the cookie with a value that is not the empty string
    (no token is drawn then), and a fresh token when the cookie is absent or
    empty; the page-id mapping and the client are not touched. *)
Theorem session_id_rolls win w :
  let r := getOrGenerateSessionId win w in
  effects_of (getOrGenerateSessionId win) w
  = [CookieGet SESSION_ID_COOKIE;
     CookieSet SESSION_ID_COOKIE r.1
       {| expires := ExpiresAt
            {| fullYear := fullYear (now win);
               month := month (now win);
               day := day (now win);
               hours := hours (now win);
               minutes := minutes (now win) + 30;
               seconds := seconds (now win) |};
          sameSite := Strict |}]
  /\ (forall t a,
        cookies w !! SESSION_ID_COOKIE
        = Some {| cookie_value := t; cookie_attributes := a |} ->
        JsString.truthy t = true ->
        r.1 = t /\ entropy r.2 = entropy w)
  /\ (cookies w !! SESSION_ID_COOKIE = None
      \/ (exists a, cookies w !! SESSION_ID_COOKIE
                    = Some {| cookie_value := ""; cookie_attributes := a |}) ->
      r.1 = uuidv4 (entropy w) /\ entropy r.2 = S (entropy w))
  /\ pageIds r.2 = pageIds w
  /\ jitsu r.2 = jitsu w.
Proof.
  cbv zeta. unfold effects_of.
  rewrite (getOrGenerateSessionId_run win w). cbv zeta.
  cbn [fst snd log pageIds jitsu entropy].
  split; [apply drop_app_length|].
  split.
  { intros t a Hc Ht.
    assert (Hu : usable w SESSION_ID_COOKIE = Some t)
      by (apply usable_Some; eauto).
    rewrite Hu. split; reflexivity. }
  split.
  { intros [Hc | (a & Hc)]; unfold usable; rewrite Hc; split; reflexivity. }
  split; reflexivity.
Qed.

(** *** Cookies over a run of calls *)








(** *** Calls with nothing to dispatch to, and calls whose request fails *)





(** *** The caller's properties *)







(** The client variable after one call, if any client is stored. *)
Lemma track_client env window event props w (P : JitsuClient -> Prop) :
  (forall c, jitsu w = Some c -> P c) ->
  P {| handle := handles w; options := jitsuOptions env |} ->
  forall c, jitsu (track env window event props w).2 = Some c -> P c.
Proof.
  intros Hold Hnew c. destruct window as [win|]; [|apply Hold].
  destruct (track_run env win event props w) as (_ & _ & Hj).
  cbv zeta in Hj. rewrite Hj.
  destruct (history_state win); [|apply Hold].
  destruct (isTelemetryEnabled env); [|apply Hold].
  unfold client_for. destruct (jitsu w) as [c0|] eqn:E.
  - intros [= <-]. now apply Hold.
  - intros [= <-]. exact Hnew.
Qed.

(** X8. Outside cloud mode the analytics client never captures third-party
    cookies: whatever sequence of calls is made from page load, if none of
    them runs in cloud mode then the client stored afterwards, if any, was
    created with [capture_3rd_party_cookies] off, and with the fixed
    tracking host. *)
Theorem third_party_cookies_only_in_cloud calls jar n c :
  Forall (fun call => isCloud (call_env call) = false) calls ->
  jitsu (run calls (page_load jar n)) = Some c ->
  capture_3rd_party_cookies (options c) = None
  /\ tracking_host (options c) = "https://t.growthbook.io".
Proof.
  intros Hcalls.
  assert (Hgen : forall w,
    (forall c0, jitsu w = Some c0 ->
       capture_3rd_party_cookies (options c0) = None
       /\ tracking_host (options c0) = "https://t.growthbook.io") ->
    forall c0, jitsu (run calls w) = Some c0 ->
       capture_3rd_party_cookies (options c0) = None
       /\ tracking_host (options c0) = "https://t.growthbook.io").
  { induction Hcalls as [|call calls Hcall Hrest IH]; intros w Hw; [exact Hw|].
    cbn [run]. apply IH.
    apply track_client; [exact Hw|].
    unfold jitsuOptions. cbn [options capture_3rd_party_cookies tracking_host].
    rewrite Hcall. split; reflexivity. }
  apply Hgen. intros c0. discriminate.
Qed.

End WithLibs.


Lemma third_party_cookies_only_in_cloud_witness :
  capture_3rd_party_cookies
    (options {| handle := 0;
                options := jitsuOptions TrackSamples.self_hosted |}) = None.
Proof.
  refine (proj1 (third_party_cookies_only_in_cloud (H := TrackSamples.libs)
                   two_views ∅ 0 _ _ _)).
  - repeat constructor.
  - vm_compute. reflexivity.
Defined.



End TrackMoreFacts.

(** ** The domain trackers *)

Module TrackersFacts.
Import Track Trackers TrackFacts.

#[local] Arguments String.append : simpl nomatch.

Lemma append_assoc (a b c : string) : (a +:+ b) +:+ c = a +:+ (b +:+ c).
Proof. induction a as [|x a IH]; simpl; [reflexivity | now rewrite IH]. Qed.

(** Joining a list whose first element starts with [p]. *)
Lemma concat_head p x sep rest :
  String.concat sep ((p +:+ x) :: rest) = p +:+ String.concat sep (x :: rest).
Proof.
  destruct rest as [|y rest]; cbn [String.concat]; [reflexivity|].
  apply append_assoc.
Qed.

Section WithLibs.
Context `{Libs} `{Constants}.

(** What [parseSnapshotDimension] makes of a prefixed identifier. *)
Lemma parse_predefined x :
  parseSnapshotDimension ("pre:" +:+ x)
  = {| type := "predefined"; dim_id := x |}.
Proof.
  unfold parseSnapshotDimension.
  rewrite JsStringFacts.substring_head, JsStringFacts.substring_tail.
  reflexivity.
Qed.

Lemma parse_experiment x :
  parseSnapshotDimension ("exp:" +:+ x)
  = {| type := "experiment"; dim_id := md5 x |}.
Proof.
  unfold parseSnapshotDimension.
  rewrite JsStringFacts.substring_head, JsStringFacts.substring_tail.
  reflexivity.
Qed.

Lemma snapshot_delivers env win st event source dt snapshot w :
  history_state win = Some st ->
  delivers env ("Experiment Snapshot: " +:+ change_name event)
    (trackProps env win (obj_literal (snapshot_props source dt snapshot) []))
    (effects_of (trackSnapshot env (Some win) event source dt snapshot) w).
Proof. intros E. unfold trackSnapshot. now apply (track_delivers env win st). Qed.

Lemma report_delivers env win st event source dt report w :
  history_state win = Some st ->
  delivers env ("Experiment Report: " +:+ change_name event)
    (trackProps env win (obj_literal (report_props source dt report) []))
    (effects_of (trackReport env (Some win) event source dt report) w).
Proof. intros E. unfold trackReport. now apply (track_delivers env win st). Qed.

(** The fourteen properties of a projection survive [track]. *)
Lemma projection_survives env win sent :
  Forall (fun kv => obj_get kv.1
                      (trackProps env win (obj_literal (props_object sent) []))
                    = Some kv.2)
         (props_object sent).
Proof.
  unfold props_object. repeat constructor.
Qed.

(** X9. When the API returned no snapshot (or no report), the tracker still
    reports the event: in a call whose history entry has a state, the event
    named after the kind of object and the change is delivered to the
    warehouse when its URL is configured and to the analytics client when
    telemetry is enabled, with a bag whose [error] says that no object was
    returned and which has none of the projection's properties ([id],
    [experiment], [dimension_id]); every dispatch of the call carries that
    bag. *)
Theorem missing_object_is_reported env win st event source dt w :
  history_state win = Some st ->
  let snap := effects_of (trackSnapshot env (Some win) event source dt None) w in
  let rep := effects_of (trackReport env (Some win) event source dt None) w in
  (exists p,
      delivers env ("Experiment Snapshot: " +:+ change_name event) p snap
      /\ obj_get "error" p = Some (VStr "no snapshot object returned by API")
      /\ obj_get "id" p = None /\ obj_get "experiment" p = None
      /\ obj_get "dimension_id" p = None)
  /\ (exists p,
        delivers env ("Experiment Report: " +:+ change_name event) p rep
        /\ obj_get "error" p = Some (VStr "no report object returned by API")
        /\ obj_get "id" p = None /\ obj_get "experiment" p = None
        /\ obj_get "dimension_id" p = None).
Proof.
  intros E. cbv zeta. split.
  - eexists. split; [now apply (snapshot_delivers env win st)|]. repeat split.
  - eexists. split; [now apply (report_delivers env win st)|]. repeat split.
Qed.

(** X10. The projection of a snapshot (of a report) reaches the collectors
    whole: in a call whose history entry has a state, the bag delivered to
    the warehouse when its URL is configured and to the analytics client
    when telemetry is enabled, which every dispatch of the call carries, has
    each of the fourteen properties with the value the projection gave it,
    none being overridden by the fields [track] adds; in particular [id] and
    [experiment] are the md5 hashes of the object's identifiers (the empty
    string for an empty identifier), never the identifiers themselves. *)
Theorem projection_reaches_collectors env win st event source dt snapshot
    report w :
  history_state win = Some st ->
  (exists p,
      delivers env ("Experiment Snapshot: " +:+ change_name event) p
        (effects_of (trackSnapshot env (Some win) event source dt
                       (Some snapshot)) w)
      /\ Forall (fun kv => obj_get kv.1 p = Some kv.2)
           (props_object (getTrackingPropsFromSnapshot snapshot source dt))
      /\ obj_get "id" p
         = Some (VStr (if JsString.truthy (snapshot_id snapshot)
                       then md5 (snapshot_id snapshot) else ""))
      /\ obj_get "experiment" p
         = Some (VStr (if JsString.truthy (snapshot_experiment snapshot)
                       then md5 (snapshot_experiment snapshot) else "")))
  /\ (exists p,
        delivers env ("Experiment Report: " +:+ change_name event) p
          (effects_of (trackReport env (Some win) event source dt
                         (Some report)) w)
        /\ Forall (fun kv => obj_get kv.1 p = Some kv.2)
             (props_object (getTrackingPropsFromReport report source dt))
        /\ obj_get "id" p
           = Some (VStr (if JsString.truthy (report_id report)
                         then md5 (report_id report) else ""))
        /\ obj_get "experiment" p
           = Some (VStr (if JsString.truthy (experimentId report)
                         then md5 (experimentId report) else ""))).
Proof.
  intros E. split.
  - eexists. split; [now apply (snapshot_delivers env win st)|].
    cbn [snapshot_props].
    split; [apply projection_survives|]. split; reflexivity.
  - eexists. split; [now apply (report_delivers env win st)|].
    cbn [report_props].
    split; [apply projection_survives|]. split; reflexivity.
Qed.

(** X11. A snapshot's dimensions are joined with ", " and classified as one
    string, by the prefix of the first: with no dimension the type is "none"
    and the id empty; when the first is "pre:" followed by [x] the type is
    "predefined" and the id is [x] followed by the remaining dimension ids as
    they are, unhashed; when the first is "exp:" followed by [x] the type is
    "experiment" and the id is one md5 hash of [x] joined with the remaining
    ids. *)
Theorem joined_dimensions_are_parsed_as_one s source dt :
  let sent := getTrackingPropsFromSnapshot s source dt in
  (dimensions (snapshot_settings s) = [] ->
   dimension_type sent = "none" /\ dimension_id sent = "")
  /\ (forall x rest,
        dimensions (snapshot_settings s)
        = {| dimension_name := "pre:" +:+ x |} :: rest ->
        dimension_type sent = "predefined"
        /\ dimension_id sent
           = String.concat ", " (x :: map dimension_name rest))
  /\ (forall x rest,
        dimensions (snapshot_settings s)
        = {| dimension_name := "exp:" +:+ x |} :: rest ->
        dimension_type sent = "experiment"
        /\ dimension_id sent
           = md5 (String.concat ", " (x :: map dimension_name rest))).
Proof.
  cbv zeta. unfold getTrackingPropsFromSnapshot, joined_dimensions.
  cbn [dimension_type dimension_id].
  split; [|split].
  - intros ->. split; reflexivity.
  - intros x rest ->. cbn [map dimension_name].
    rewrite concat_head.
    change (or_string ("pre:" +:+ String.concat ", " (x :: map dimension_name rest)) "")
      with ("pre:" +:+ String.concat ", " (x :: map dimension_name rest)).
    rewrite parse_predefined. split; reflexivity.
  - intros x rest ->. cbn [map dimension_name].
    rewrite concat_head.
    change (or_string ("exp:" +:+ String.concat ", " (x :: map dimension_name rest)) "")
      with ("exp:" +:+ String.concat ", " (x :: map dimension_name rest)).
    rewrite parse_experiment. split; reflexivity.
Qed.

End WithLibs.

Lemma joined_dimensions_are_parsed_as_one_witness :
  dimension_id
    (getTrackingPropsFromSnapshot (H := TrackSamples.libs) (H0 := constants)
       two_dimension_snapshot "experiment page" None)
  = "date, exp:country".
Proof.
  refine (proj2 (proj1 (proj2
            (joined_dimensions_are_parsed_as_one (H := TrackSamples.libs)
               (H0 := constants) two_dimension_snapshot "experiment page" None))
            "date" [ {| dimension_name := "exp:country" |} ] _)).
  reflexivity.
Defined.

Lemma missing_object_is_reported_witness :
  exists p,
    delivers (H := TrackSamples.libs) TrackSamples.self_hosted
      "Experiment Snapshot: create" p
      (effects_of (trackSnapshot (H := TrackSamples.libs) (H0 := constants)
                     TrackSamples.self_hosted (Some TrackSamples.company_page)
                     Create "experiment page" None None)
                  (page_load ∅ 0))
    /\ obj_get "error" p = Some (VStr "no snapshot object returned by API")
    /\ obj_get "id" p = None /\ obj_get "experiment" p = None
    /\ obj_get "dimension_id" p = None.
Proof.
  refine (proj1 (missing_object_is_reported (H := TrackSamples.libs)
                   (H0 := constants) TrackSamples.self_hosted
                   TrackSamples.company_page {| state_key := Some "k2" |}
                   Create "experiment page" None (page_load ∅ 0) _)).
  reflexivity.
Defined.

Lemma projection_reaches_collectors_witness :
  exists p,
    delivers (H := TrackSamples.libs) TrackSamples.self_hosted
      "Experiment Snapshot: update" p
      (effects_of (trackSnapshot (H := TrackSamples.libs) (H0 := constants)
                     TrackSamples.self_hosted (Some TrackSamples.company_page)
                     Update "experiment page" None
                     (Some two_dimension_snapshot))
                  (page_load ∅ 0))
    /\ obj_get "id" p = Some (VStr "md5(snp_1)").
Proof.
  destruct (proj1 (projection_reaches_collectors (H := TrackSamples.libs)
                     (H0 := constants) TrackSamples.self_hosted
                     TrackSamples.company_page {| state_key := Some "k2" |}
                     Update "experiment page" None two_dimension_snapshot
                     sample_report (page_load ∅ 0) eq_refl))
    as (p & Hd & _ & Hid & _).
  exists p. split; [exact Hd | exact Hid].
Defined.

End TrackersFacts.

(** ** More on the update-experiment handler *)

Module UpdateExperimentMoreFacts.
Import UpdateExperiment HandlerNotions.

Section WithBackend.
Context `{Backend}.

Ltac run_handler :=
  unfold serve, updateExperiment, UpdateExperiment.bind, call,
    do_updateExperimentToDb, throw, UpdateExperiment.ret;
  cbn [context calls fst snd].

Ltac crunch :=
  cbn [context calls fst snd negb andb orb app existsb List.filter updates
       is_update is_tracking_key_lookup is_project_check is_permission_check
       is_datasource_lookup is_serialisation last].

(** Case analysis on every check of a request on experiment [e]. *)
Ltac all_checks ctx req e :=
  destruct (body_project (body req)) as [p|];
    [ destruct (JsString.truthy p);
      [ crunch; destruct (ensureProjectsExist ctx [p]) | ] | ];
  crunch;
  (destruct (canUpdateExperiment ctx e (body req)); crunch);
  (destruct (getDataSourceById ctx (datasource e)) as [d|]; crunch);
  (destruct (body_assignmentQueryId (body req)) as [| |q]; crunch;
   rewrite ?UpdateExperimentFacts.js_not_exposure_some;
   try (destruct (JsString.eqb q (exposureQueryId e)); crunch);
   try (destruct (bool_decide (q ∈ exposure_ids d)); crunch));
  (destruct (body_trackingKey (body req)) as [| |k]; crunch;
   try (destruct (JsString.eqb k (trackingKey e)); crunch);
   try (destruct (getExperimentByTrackingKey ctx k); crunch)).

(** X12. The handler applies the update exactly when the experiment exists
    and the request passes every check: then the data layer's update is
    called once, with the experiment and the changes computed from the
    payload, and the stored data afterwards is what that call returned.  In
    every other case the handler throws, the update is not called and the
    stored data is unchanged; for a missing experiment the error says so. *)
Theorem update_iff_checks_pass ctx req :
  let r := serve ctx req in
  match getExperimentById ctx (params_id req) with
  | Some e =>
      let changes := updateExperimentApiPayloadToInterface (body req) e in
      if passes_all_checks ctx e (body req) then
        updates (calls r.2) = [UpdateExperimentToDb e changes]
        /\ context r.2 = (updateExperimentToDb ctx e changes).2
      else
        updates (calls r.2) = []
        /\ context r.2 = ctx
        /\ exists err, r.1 = inl err
  | None =>
      updates (calls r.2) = []
      /\ context r.2 = ctx
      /\ r.1 = inl (Error "Could not find the experiment to update")
  end.
Proof.
  cbv zeta. run_handler.
  destruct (getExperimentById ctx (params_id req)) as [e|];
    [|repeat split].
  unfold passes_all_checks, reaches_tracking_key_check, projects_ok,
    assignment_ok, tracking_key_ok.
  all_checks ctx req e;
    try solve [split; [reflexivity | split; [reflexivity | eexists; reflexivity]]].
  all: destruct (updateExperimentToDb ctx e
                   (updateExperimentApiPayloadToInterface (body req) e))
         as [[updated|] ctx'];
    crunch; split; reflexivity.
Qed.

(** X13. When the experiment exists, the request passes every check and the
    data layer's update returns the updated experiment, the handler returns
    that experiment in its API representation, serialised in the context the
    update left; the serialisation is the last call made. *)
Theorem successful_update_is_serialised ctx req e updated ctx' :
  getExperimentById ctx (params_id req) = Some e ->
  passes_all_checks ctx e (body req) = true ->
  updateExperimentToDb ctx e
    (updateExperimentApiPayloadToInterface (body req) e) = (Some updated, ctx') ->
  let r := serve ctx req in
  r.1 = inr {| experiment := toExperimentApiInterface ctx' updated |}
  /\ context r.2 = ctx'
  /\ last (calls r.2) = Some (ToExperimentApiInterface updated).
Proof.
  intros He Hp Hu. cbv zeta. revert Hp.
  unfold passes_all_checks, reaches_tracking_key_check, projects_ok,
    assignment_ok, tracking_key_ok.
  run_handler. rewrite He.
  all_checks ctx req e; try discriminate.
  all: rewrite Hu; crunch; intros _; repeat split.
Qed.

(** X14. When the data layer's update returns no result, the handler throws
    its internal error and serialises nothing, but whatever the update did to
    the stored data stays: the context is the one the update left. *)
Theorem failed_update_is_not_rolled_back ctx req e ctx' :
  getExperimentById ctx (params_id req) = Some e ->
  passes_all_checks ctx e (body req) = true ->
  updateExperimentToDb ctx e
    (updateExperimentApiPayloadToInterface (body req) e) = (None, ctx') ->
  let r := serve ctx req in
  r.1 = inl (Error "Error happened during updating experiment.")
  /\ context r.2 = ctx'
  /\ existsb is_serialisation (calls r.2) = false.
Proof.
  intros He Hp Hu. cbv zeta. revert Hp.
  unfold passes_all_checks, reaches_tracking_key_check, projects_ok,
    assignment_ok, tracking_key_ok.
  run_handler. rewrite He.
  all_checks ctx req e; try discriminate.
  all: rewrite Hu; crunch; intros _; repeat split.
Qed.

(** X15. The project check comes before the permission check and is skipped
    for an empty project: a request that names a project which does not
    exist is rejected with the project error after exactly two calls (the
    experiment look-up and the project check), the permission checker not
    being consulted; a request with no project or with the empty string as
    project never reaches the project check. *)
Theorem project_check_comes_first ctx req e :
  getExperimentById ctx (params_id req) = Some e ->
  (forall p,
      body_project (body req) = Some p ->
      JsString.truthy p = true ->
      ensureProjectsExist ctx [p] = false ->
      serve ctx req
      = (inl (ProjectsDoNotExist [p]),
         {| context := ctx;
            calls := [GetExperimentById (params_id req);
                      EnsureProjectsExist [p]] |}))
  /\ (body_project (body req) = None
      \/ body_project (body req) = Some EmptyString ->
      existsb is_project_check (calls (serve ctx req).2) = false).
Proof.
  intros He. split.
  - intros p Hp Ht Hno. run_handler. rewrite He, Hp, Ht. crunch.
    rewrite Hno. reflexivity.
  - intros Hp. run_handler. rewrite He.
    assert (Hskip : match body_project (body req) with
                    | Some p => JsString.truthy p
                    | None => false
                    end = false)
      by (destruct Hp as [-> | ->]; reflexivity).
    revert Hskip.
    all_checks ctx req e; try discriminate; intros _; try reflexivity.
    all: destruct (updateExperimentToDb ctx e
                     (updateExperimentApiPayloadToInterface (body req) e))
           as [[updated|] ctx'];
      crunch; reflexivity.
Qed.

(** X16. A caller without the right to update is stopped at the permission
    check: the handler throws the permission error right after calling
    [throwPermissionError], without having looked up the data source or a
    tracking key, and the stored data is unchanged. *)
Theorem permission_denied_stops_early ctx req e :
  getExperimentById ctx (params_id req) = Some e ->
  projects_ok ctx (body req) = true ->
  canUpdateExperiment ctx e (body req) = false ->
  let r := serve ctx req in
  r.1 = inl PermissionError
  /\ last (calls r.2) = Some ThrowPermissionError
  /\ existsb is_datasource_lookup (calls r.2) = false
  /\ existsb is_tracking_key_lookup (calls r.2) = false
  /\ context r.2 = ctx.
Proof.
  intros He Hp Hc. cbv zeta. revert Hp. unfold projects_ok.
  run_handler. rewrite He.
  destruct (body_project (body req)) as [p|];
    [ destruct (JsString.truthy p);
      [ crunch; destruct (ensureProjectsExist ctx [p]) | ] | ];
    crunch; try discriminate; rewrite Hc; crunch; intros _; repeat split.
Qed.

(** X17. An experiment whose data source cannot be found cannot be updated
    at all: whatever the payload (a change of name only, say), a permitted
    request on it fails with the missing-data-source error, the update is
    not called and the stored data is unchanged. *)
Theorem missing_datasource_blocks_update ctx req e :
  getExperimentById ctx (params_id req) = Some e ->
  projects_ok ctx (body req) = true ->
  canUpdateExperiment ctx e (body req) = true ->
  getDataSourceById ctx (datasource e) = None ->
  let r := serve ctx req in
  r.1 = inl (Error "No datasource for this experiment was found.")
  /\ updates (calls r.2) = []
  /\ context r.2 = ctx.
Proof.
  intros He Hp Hc Hd. cbv zeta. revert Hp. unfold projects_ok.
  run_handler. rewrite He.
  destruct (body_project (body req)) as [p|];
    [ destruct (JsString.truthy p);
      [ crunch; destruct (ensureProjectsExist ctx [p]) | ] | ];
    crunch; try discriminate; rewrite Hc; crunch; rewrite Hd; crunch;
    intros _; repeat split.
Qed.

(** X18. The look-up by tracking key is made exactly when the experiment
    exists, the request gets as far as the tracking-key check and its body
    has a non-null tracking key that differs from the experiment's: a body
    with no tracking key, a null one or the current one never triggers
    it. *)
Theorem tracking_key_lookup_iff ctx req :
  existsb is_tracking_key_lookup (calls (serve ctx req).2)
  = match getExperimentById ctx (params_id req) with
    | Some e =>
        reaches_tracking_key_check ctx e (body req)
        && match body_trackingKey (body req) with
           | Present k => negb (JsString.eqb k (trackingKey e))
           | _ => false
           end
    | None => false
    end.
Proof.
  run_handler.
  destruct (getExperimentById ctx (params_id req)) as [e|]; [|reflexivity].
  unfold reaches_tracking_key_check, projects_ok, assignment_ok.
  all_checks ctx req e; try reflexivity.
  all: destruct (updateExperimentToDb ctx e
                   (updateExperimentApiPayloadToInterface (body req) e))
         as [[updated|] ctx'];
    crunch; reflexivity.
Qed.

End WithBackend.

(** *** The handler on concrete requests *)

Import HandlerSamples.

Lemma successful_update_is_serialised_witness :
  (serve (H := backend) store (request same_key)).1
  = inr (@Build_UpdateExperimentResponse backend
           (apply_payload same_key checkout_test)).
Proof.
  refine (proj1 (successful_update_is_serialised (H := backend) store
                   (request same_key) checkout_test
                   (apply_payload same_key checkout_test)
                   (replace_experiment (apply_payload same_key checkout_test)
                      store) _ _ _));
    reflexivity.
Defined.

Lemma failed_update_is_not_rolled_back_witness :
  (serve (H := failing_backend) store (request same_key)).1
  = inl (Error "Error happened during updating experiment.").
Proof.
  refine (proj1 (failed_update_is_not_rolled_back (H := failing_backend) store
                   (request same_key) checkout_test store _ _ _));
    reflexivity.
Defined.

Lemma project_check_comes_first_witness :
  serve (H := backend) read_only_store (request unknown_project)
  = (inl (ProjectsDoNotExist ["retention"]),
     @Build_HandlerState backend read_only_store
       [GetExperimentById "exp_1"; EnsureProjectsExist ["retention"]])
  /\ existsb is_project_check
       (calls (serve (H := backend) store (request empty_project)).2) = false.
Proof.
  split.
  - refine (proj1 (project_check_comes_first (H := backend) read_only_store
                     (request unknown_project) checkout_test _)
              "retention" _ _ _); reflexivity.
  - refine (proj2 (project_check_comes_first (H := backend) store
                     (request empty_project) checkout_test _) _);
      [reflexivity | right; reflexivity].
Defined.

Lemma permission_denied_stops_early_witness :
  (serve (H := backend) read_only_store (request same_key)).1
  = inl PermissionError.
Proof.
  refine (proj1 (permission_denied_stops_early (H := backend) read_only_store
                   (request same_key) checkout_test _ _ _));
    reflexivity.
Defined.

Lemma missing_datasource_blocks_update_witness :
  (serve (H := backend) store_without_datasource (request same_key)).1
  = inl (Error "No datasource for this experiment was found.").
Proof.
  refine (proj1 (missing_datasource_blocks_update (H := backend)
                   store_without_datasource (request same_key)
                   checkout_test _ _ _ _));
    reflexivity.
Defined.

End UpdateExperimentMoreFacts.
